(** * ell.provider: the Provider contract and its validators

    Shallow embedding of [src/ell/provider.py]: the abstract [Provider]
    class, its orchestrated [call], and the two module-level validators
    [_validate_provider_call_params] and [_validate_messages_are_tracked].

    Python objects are modelled by a small value universe with a class
    tag, exceptions by an error type, and the calls [Provider.call] makes
    into provider-supplied code by a log of events threaded through a
    state-and-error monad.

    Every check of the module is an [assert] statement.  Python runs
    [assert] only when [__debug__] is true, which is the default; under
    [python -O] ("production mode" in the source's words) the statements are
    compiled away.  The functions below take [__debug__] as their first
    argument so that both modes can be stated. *)

From Stdlib Require Import ZArith QArith String List.
From stdpp Require Import base decidable option list gmap sets strings.

Local Open Scope string_scope.
Local Open Scope list_scope.

Set Warnings "-register-all,-clear-no-such-hyp".

(** ** Python values and classes *)

(** The classes the module can meet at run time.  [_lstr] is
    [ell.types._lstr._lstr], a subclass of [str]. *)
Inductive pyclass :=
| object_
| NoneType
| bool_
| int_
| float_
| str_
| _lstr
| list_
| dict_
| dict_keys
| UserClass (name : string).

Global Instance pyclass_eq_dec : EqDecision pyclass.
Proof. solve_decision. Defined.

(** Values.  A dict is an association list in insertion order, which is
    the order [dict.items()] iterates in. *)
Inductive pyval :=
| PyNone
| PyBool (b : bool)
| PyInt (z : Z)
| PyFloat (q : Q)
| PyStr (s : string)
| PyLstr (s : string) (_or : option string)
| PyList (l : list pyval)
| PyDict (d : list (string * pyval))
| PyDictKeys (ks : list string)
| PyObject (cls : string) (id : nat).

(** Modelled from the spec: [ell.types._lstr._lstr] is not part of the
    source at hand.  It is the provenance-tagged string of the spec, a
    [str] subclass whose recorded origin can be read back (attribute [_or],
    and [origin_id] in the failure message); [PyLstr s o] is such a string
    with content [s] and recorded origin [o]. *)
Definition lstr_origin (v : pyval) : option string :=
  match v with
  | PyLstr _ o => o
  | _ => None
  end.

(** [type(v)] *)
Definition type_of (v : pyval) : pyclass :=
  match v with
  | PyNone => NoneType
  | PyBool _ => bool_
  | PyInt _ => int_
  | PyFloat _ => float_
  | PyStr _ => str_
  | PyLstr _ _ => _lstr
  | PyList _ => list_
  | PyDict _ => dict_
  | PyDictKeys _ => dict_keys
  | PyObject cls _ => UserClass cls
  end.

(** [issubclass(c, d)]: every class derives from [object], [bool] from
    [int] and [_lstr] from [str]. *)
Definition issubclass (c d : pyclass) : bool :=
  match d with
  | object_ => true
  | _ =>
      bool_decide (c = d)
      || (bool_decide (c = bool_) && bool_decide (d = int_))
      || (bool_decide (c = _lstr) && bool_decide (d = str_))
  end.

(** [isinstance(v, c)] *)
Definition isinstance (v : pyval) (c : pyclass) : bool :=
  issubclass (type_of v) c.

(** What a parameter can be annotated with, as the second argument of
    [isinstance]: a class, or any other object (typing.Any, a subscripted
    generic such as List[int], a string, a union).  For the latter
    [instancecheck] is what [isinstance] does with it: it returns, as a
    union of classes does, or raises [TypeError] with a message, as
    typing.Any, List[int] and strings do for every value.  [repr] is what a
    message shows of it. *)
Inductive annotation_obj :=
| AnnClass (c : pyclass)
| AnnOther (repr : string) (instancecheck : pyval -> bool + string).

(** ** Exceptions *)

(** Why a message counts as untracked: the two assertions of
    [_validate_messages_are_tracked]. *)
Inductive Untracked :=
| NotLstr (actual : pyclass)
| WrongOrigin (recorded : option string) (expected : string).

(** The assertion failures of the module, one constructor per assertion
    message; the payload is what the message interpolates. *)
Inductive ContractViolation :=
| DisallowedParam (api_params : list (string * pyval))
| MissingRequiredParam (name : string)
| UnexpectedParam (name : string)
| TypeMismatch (name : string) (expected : annotation_obj)
| UntrackedMessage (why : Untracked).

Inductive exn :=
| AssertionError (v : ContractViolation)
| TypeError (msg : string)
| KeyError (key : string)
| OtherError (cls : string) (msg : string).

Inductive result (A : Type) :=
| Ok (a : A)
| Raise (e : exn).
Arguments Ok {A} a.
Arguments Raise {A} e.

Global Instance result_ret : MRet result := fun A a => Ok a.
Global Instance result_bind : MBind result := fun A B f r =>
  match r with
  | Ok a => f a
  | Raise e => Raise e
  end.

(** ** Callables and signatures *)

(** [inspect.Parameter.kind] *)
Inductive ParameterKind :=
| POSITIONAL_ONLY
| POSITIONAL_OR_KEYWORD
| VAR_POSITIONAL
| KEYWORD_ONLY
| VAR_KEYWORD.

Global Instance ParameterKind_eq_dec : EqDecision ParameterKind.
Proof. solve_decision. Defined.

(** [inspect.Parameter]: [None] stands for [Parameter.empty] in both
    [default] and [annotation]; a declared annotation is whatever object
    the [def] was annotated with. *)
Record inspect_Parameter := mkParameter {
  kind : ParameterKind;
  default : option pyval;
  annotation : option annotation_obj
}.

(** What [provider_call_function] and a backend call can return: plain
    data, or a callable with its signature (in declaration order) and its
    behaviour on positional and keyword arguments. *)
Inductive pyobj :=
| Data (v : pyval)
| Callable (parameters : list (string * inspect_Parameter))
           (body : list pyval -> list (string * pyval) -> result pyobj).

(** [name in d] and [d[name]] on a mapping with [str] keys. *)
Definition contains {V} (name : string) (d : list (string * V)) : bool :=
  existsb (fun kv => bool_decide (kv.1 = name)) d.

Fixpoint getitem {V} (d : list (string * V)) (name : string) : result V :=
  match d with
  | [] => Raise (KeyError name)
  | (k, v) :: d' => if bool_decide (k = name) then Ok v else getitem d' name
  end.

(** Calling [obj] with positional arguments [args] and keyword arguments
    [kwargs]. *)
Definition py_call (obj : pyobj) (args : list pyval)
    (kwargs : list (string * pyval)) : result pyobj :=
  match obj with
  | Callable _ body => body args kwargs
  | Data _ => Raise (TypeError "object is not callable")
  end.

(** [isinstance(v, a)] for an annotation: by subclassing for a class, and
    as the object decides otherwise. *)
Definition py_isinstance (v : pyval) (a : annotation_obj) : result bool :=
  match a with
  | AnnClass c => Ok (isinstance v c)
  | AnnOther _ instancecheck =>
      match instancecheck v with
      | inl b => Ok b
      | inr msg => Raise (TypeError msg)
      end
  end.

(** [hash(v)]: lists, dicts and dict views are unhashable (a dict view
    defines [__eq__] and no [__hash__]). *)
Definition py_hash (v : pyval) : result unit :=
  match v with
  | PyList _ => Raise (TypeError "unhashable type: 'list'")
  | PyDict _ => Raise (TypeError "unhashable type: 'dict'")
  | PyDictKeys _ => Raise (TypeError "unhashable type: 'dict_keys'")
  | _ => Ok tt
  end.

(** [v in s] for a [frozenset] of [str]: the operand is hashed first, then
    compared with the elements. *)
Definition frozenset_contains (v : pyval) (s : gset string) : result bool :=
  py_hash v ;;
  mret (match v with
        | PyStr k | PyLstr k _ => bool_decide (k ∈ s)
        | _ => false
        end).

(** [assert cond, msg]: with [__debug__] false (python -O) the statement
    is compiled away and [cond] is not evaluated. *)
Definition py_assert (__debug__ : bool) (cond : result bool)
    (msg : ContractViolation) : result unit :=
  if __debug__ then
    b ← cond;
    if b : bool then Ok tt else Raise (AssertionError msg)
  else Ok tt.

(** [for x in l: f(x)] *)
Fixpoint for_each {A} (f : A -> result unit) (l : list A) : result unit :=
  match l with
  | [] => Ok tt
  | x :: l' => f x ;; for_each f l'
  end.

(** ** The module-level validators *)

(** [_call_params]: [inspect.signature(call).parameters].  The
    [lru_cache] memoises per callable and does not change the value. *)
Definition _call_params (call : pyobj)
    : result (list (string * inspect_Parameter)) :=
  match call with
  | Callable parameters _ => Ok parameters
  | Data _ => Raise (TypeError "object is not a callable object")
  end.

(** The filter of the [required_params] comprehension:
    [param.default == param.empty and param.kind != param.VAR_KEYWORD]. *)
Definition is_required (param : inspect_Parameter) : bool :=
  match default param with
  | None => true
  | Some _ => false
  end
  && negb (bool_decide (kind param = VAR_KEYWORD)).

Definition required_params
    (provider_call_params : list (string * inspect_Parameter))
    : list (string * inspect_Parameter) :=
  filter (fun np => is_required np.2 = true) provider_call_params.

(** The body of the second loop of [_validate_provider_call_params], for
    one item of [api_call_params.items()]. *)
Definition check_param (__debug__ : bool)
    (provider_call_params : list (string * inspect_Parameter))
    (item : string * pyval) : result unit :=
  let '(param_name, param_value) := item in
  py_assert __debug__ (Ok (contains param_name provider_call_params))
            (UnexpectedParam param_name) ;;
  param ← getitem provider_call_params param_name;
  match annotation param with
  | None => Ok tt
  | Some param_type =>
      py_assert __debug__ (py_isinstance param_value param_type)
                (TypeMismatch param_name param_type)
  end.

Definition _validate_provider_call_params (__debug__ : bool)
    (api_call_params : list (string * pyval)) (call : pyobj) : result unit :=
  provider_call_params ← _call_params call;
  for_each
    (fun np => py_assert __debug__ (Ok (contains np.1 api_call_params))
                         (MissingRequiredParam np.1))
    (required_params provider_call_params) ;;
  for_each (check_param __debug__ provider_call_params) api_call_params.

(** [ell.types.Message], as far as this module reads it: the [text]
    projection is a [str], tagged ([_lstr]) or not. *)
Record Message := mkMessage {
  role : string;
  content : list pyval;
  text : pyval
}.

(** The body of the loop of [_validate_messages_are_tracked]. *)
Definition check_message (__debug__ : bool) (origin_id : string)
    (message : Message) : result unit :=
  py_assert __debug__ (Ok (isinstance (text message) _lstr))
            (UntrackedMessage (NotLstr (type_of (text message)))) ;;
  py_assert __debug__
            (Ok (bool_decide (lstr_origin (text message) = Some origin_id)))
            (UntrackedMessage
               (WrongOrigin (lstr_origin (text message)) origin_id)).

Definition _validate_messages_are_tracked (__debug__ : bool)
    (messages : list Message) (origin_id : option string) : result unit :=
  match origin_id with
  | None => Ok tt
  | Some origin_id => for_each (check_message __debug__ origin_id) messages
  end.

(** ** The Provider class *)

Global Instance result_fmap : FMap result := fun A B f r =>
  match r with
  | Ok a => Ok (f a)
  | Raise e => Raise e
  end.

Record EllCallParams := mkEllCallParams {
  model : string;
  messages : list Message;
  client : pyval;
  tools : option (list pyval);
  api_params : list (string * pyval)
}.

Definition Metadata : Type := list (string * pyval).

(** The abstract methods are fields, and so is [disallowed_api_params],
    which a provider may override; the other two concrete methods,
    [available_api_params] and [call], are the base-class definitions
    below. Provider-supplied code either returns or raises. *)
Record Provider := mkProvider {
  provider_call_function : option (list (string * pyval)) -> result pyobj;
  disallowed_api_params : gset string;
  translate_to_provider : EllCallParams -> result (list (string * pyval));
  translate_from_provider :
    pyobj -> EllCallParams -> option string -> option pyval ->
    result (list Message * Metadata)
}.

(** [Provider.disallowed_api_params] as the base class defines it. *)
Definition Provider_disallowed_api_params : gset string :=
  {[ "messages"; "tools"; "model" ]}.

Definition available_api_params (self : Provider)
    (api_params : option (list (string * pyval))) : result (gset string) :=
  params ← provider_call_function self api_params ≫= _call_params;
  mret (list_to_set params.*1 ∖ disallowed_api_params self).

(** What [call] does outside this module, in the order it happens. *)
Inductive event :=
| EvTranslateToProvider (ell_call : EllCallParams)
| EvProviderCallFunction (api_call_params : list (string * pyval))
| EvCall (callee : pyobj) (args : list pyval) (kwargs : list (string * pyval))
| EvTranslateFromProvider (provider_resp : pyobj).

(** Computations that log events and may raise; the log survives a
    raise. *)
Definition M (A : Type) : Type := list event -> result A * list event.

Global Instance M_ret : MRet M := fun A a tr => (Ok a, tr).
Global Instance M_bind : MBind M := fun A B f m tr =>
  match m tr with
  | (Ok a, tr') => f a tr'
  | (Raise e, tr') => (Raise e, tr')
  end.

Definition lift {A} (r : result A) : M A := fun tr => (r, tr).
Definition extern {A} (ev : event) (r : result A) : M A :=
  fun tr => (r, tr ++ [ev]).

(** The assertion on the first line of [call]. *)
Definition check_disallowed (__debug__ : bool) (self : Provider)
    (ell_call : EllCallParams) : result unit :=
  py_assert __debug__
    (negb <$> frozenset_contains (PyDictKeys (api_params ell_call).*1)
                                 (disallowed_api_params self))
    (DisallowedParam (api_params ell_call)).

Definition call (__debug__ : bool) (self : Provider)
    (ell_call : EllCallParams) (origin_id : option string)
    (logger : option pyval)
    : M (list Message * list (string * pyval) * Metadata) :=
  lift (check_disallowed __debug__ self ell_call) ;;
  final_api_call_params ←
    extern (EvTranslateToProvider ell_call)
           (translate_to_provider self ell_call);
  call ←
    extern (EvProviderCallFunction final_api_call_params)
           (provider_call_function self (Some final_api_call_params));
  lift (_validate_provider_call_params __debug__ final_api_call_params call) ;;
  inner ←
    extern (EvCall call [PyDict final_api_call_params] [])
           (py_call call [PyDict final_api_call_params] []);
  provider_resp ←
    extern (EvCall inner [] final_api_call_params)
           (py_call inner [] final_api_call_params);
  '(messages, metadata) ←
    extern (EvTranslateFromProvider provider_resp)
           (translate_from_provider self provider_resp ell_call origin_id
                                    logger);
  lift (_validate_messages_are_tracked __debug__ messages origin_id) ;;
  mret (messages, final_api_call_params, metadata).

(** ** Python functions as callables *)

(** [kwargs] without the entry for [name]. *)
Definition without (name : string) (kwargs : list (string * pyval))
    : list (string * pyval) :=
  filter (fun kv => kv.1 ≠ name) kwargs.

(** A parameter left without an argument takes its default or the call
    fails. *)
Definition default_or_missing (name : string) (param : inspect_Parameter)
    : result pyval :=
  match default param with
  | Some d => Ok d
  | None => Raise (TypeError ("missing required argument: '" ++ name ++ "'"))
  end.

(** How a call binds positional and keyword arguments to the parameters of
    a [def], in declaration order. *)
Fixpoint bind_arguments (parameters : list (string * inspect_Parameter))
    (args : list pyval) (kwargs : list (string * pyval))
    : result (list (string * pyval)) :=
  match parameters with
  | [] =>
      match args, kwargs with
      | [], [] => Ok []
      | _ :: _, _ => Raise (TypeError "too many positional arguments")
      | [], (k, _) :: _ =>
          Raise (TypeError ("got an unexpected keyword argument '" ++ k ++ "'"))
      end
  | (name, param) :: rest =>
      let keyword_or_default args :=
        v ← (if contains name kwargs then getitem kwargs name
             else default_or_missing name param);
        bound ← bind_arguments rest args (without name kwargs);
        mret ((name, v) :: bound) in
      let positional a args' :=
        bound ← bind_arguments rest args' kwargs;
        mret ((name, a) :: bound) in
      match kind param, args with
      | VAR_POSITIONAL, _ =>
          bound ← bind_arguments rest [] kwargs;
          mret ((name, PyList args) :: bound)
      | VAR_KEYWORD, _ =>
          bound ← bind_arguments rest args [];
          mret ((name, PyDict kwargs) :: bound)
      | KEYWORD_ONLY, _ => keyword_or_default args
      | POSITIONAL_ONLY, a :: args' => positional a args'
      | POSITIONAL_ONLY, [] =>
          v ← default_or_missing name param;
          bound ← bind_arguments rest [] kwargs;
          mret ((name, v) :: bound)
      | POSITIONAL_OR_KEYWORD, a :: args' =>
          if contains name kwargs
          then Raise (TypeError ("got multiple values for argument '"
                                 ++ name ++ "'"))
          else positional a args'
      | POSITIONAL_OR_KEYWORD, [] => keyword_or_default []
      end
  end.

(** A function object: its signature and a body run on the bound
    arguments. *)
Definition py_function (parameters : list (string * inspect_Parameter))
    (impl : list (string * pyval) -> result pyobj) : pyobj :=
  Callable parameters
           (fun args kwargs => bind_arguments parameters args kwargs ≫= impl).

(** ** Test doubles *)

Module Stub.

Definition required : inspect_Parameter :=
  mkParameter POSITIONAL_OR_KEYWORD None None.
Definition optional (d : pyval) : inspect_Parameter :=
  mkParameter POSITIONAL_OR_KEYWORD (Some d) None.

(** [def backend(model, prompt, temperature=0.7): return {"text": "hello"}] *)
Definition backend : pyobj :=
  py_function
    [("model", required); ("prompt", required);
     ("temperature", optional (PyFloat (7 # 10)))]
    (fun _ => Ok (Data (PyDict [("text", PyStr "hello")]))).

(** The prompt is the text of the first message. *)
Definition prompt_of (ell_call : EllCallParams) : pyval :=
  match messages ell_call with
  | m :: _ => text m
  | [] => PyStr ""
  end.

(** [d[k] = v] and [d.update(e)] on an insertion-ordered dict. *)
Fixpoint setitem (d : list (string * pyval)) (k : string) (v : pyval)
    : list (string * pyval) :=
  match d with
  | [] => [(k, v)]
  | (k', v') :: d' =>
      if bool_decide (k' = k) then (k, v) :: d'
      else (k', v') :: setitem d' k v
  end.

Definition update (d e : list (string * pyval)) : list (string * pyval) :=
  fold_left (fun d kv => setitem d kv.1 kv.2) e d.

(** A provider over [backend] that tags its one assistant message with
    the origin it is given. *)
Definition provider : Provider := {|
  provider_call_function := fun _ => Ok backend;
  disallowed_api_params := Provider_disallowed_api_params;
  translate_to_provider := fun ell_call =>
    Ok (update [("model", PyStr (model ell_call));
                ("prompt", prompt_of ell_call)]
               (api_params ell_call));
  translate_from_provider := fun provider_resp ell_call origin_id logger =>
    Ok ([mkMessage "assistant" [] (PyLstr "hello" origin_id)], [])
|}.

Definition stub_client : pyval := PyObject "Client" 0.

(** [model="m1"], one user message ["hi"], [api_params={"temperature": 0.2}] *)
Definition ell_call : EllCallParams := {|
  model := "m1";
  messages := [mkMessage "user" [] (PyStr "hi")];
  client := stub_client;
  tools := None;
  api_params := [("temperature", PyFloat (2 # 10))]
|}.

(** The same call with [api_params={"model": "other"}]. *)
Definition override_call : EllCallParams := {|
  model := "m1";
  messages := [mkMessage "user" [] (PyStr "hi")];
  client := stub_client;
  tools := None;
  api_params := [("model", PyStr "other")]
|}.

(** A backend with the same signature that fails in transport. *)
Definition connection_error : exn := OtherError "ConnectionError" "timed out".

Definition failing_backend : pyobj :=
  Callable
    [("model", required); ("prompt", required);
     ("temperature", optional (PyFloat (7 # 10)))]
    (fun _ _ => Raise connection_error).

Definition failing_provider : Provider := {|
  provider_call_function := fun _ => Ok failing_backend;
  disallowed_api_params := Provider_disallowed_api_params;
  translate_to_provider := translate_to_provider provider;
  translate_from_provider := translate_from_provider provider
|}.

(** [def f(a, b)], and variants with a keyword sink [kwargs], with a
    typed [n: int = 0], and with variadic positional [args]. *)
Definition f : pyobj :=
  py_function [("a", required); ("b", required)] (fun _ => Ok (Data PyNone)).

Definition f_kwargs : pyobj :=
  py_function [("a", required);
               ("kwargs", mkParameter VAR_KEYWORD None None)]
              (fun _ => Ok (Data PyNone)).


(** The annotations typing.Any, typing.List[int] and typing.Optional[int]:
    [isinstance] raises on the first two and decides on the third. *)
Definition typing_Any : annotation_obj :=
  AnnOther "typing.Any"
           (fun _ => inr "typing.Any cannot be used with isinstance()").

Definition typing_List_int : annotation_obj :=
  AnnOther "typing.List[int]"
           (fun _ => inr "Subscripted generics cannot be used with class and instance checks").

Definition typing_Optional_int : annotation_obj :=
  AnnOther "typing.Optional[int]"
           (fun v => inl (isinstance v int_ || isinstance v NoneType)).

(** [def f(a: typing.Any, n: typing.Optional[int] = None)] *)
Definition generic_sig : list (string * inspect_Parameter) :=
  [("a", mkParameter POSITIONAL_OR_KEYWORD None (Some typing_Any));
   ("n", mkParameter POSITIONAL_OR_KEYWORD (Some PyNone)
                     (Some typing_Optional_int))].

Definition f_generic : pyobj :=
  py_function generic_sig (fun _ => Ok (Data PyNone)).

(** [def f(n: typing.Optional[int] = None, items: typing.List[int] = None)] *)
Definition f_optional : pyobj :=
  py_function [("n", mkParameter POSITIONAL_OR_KEYWORD (Some PyNone)
                                 (Some typing_Optional_int));
               ("items", mkParameter POSITIONAL_OR_KEYWORD (Some PyNone)
                                     (Some typing_List_int))]
              (fun _ => Ok (Data PyNone)).

Definition f_args : pyobj :=
  py_function [("a", required);
               ("args", mkParameter VAR_POSITIONAL None None)]
              (fun _ => Ok (Data PyNone)).

(** A backend that declares the three derived names itself. *)
Definition chat : pyobj :=
  py_function [("model", required); ("messages", required);
               ("tools", optional PyNone);
               ("temperature", optional (PyFloat (7 # 10)))]
              (fun _ => Ok (Data PyNone)).

Definition chat_provider : Provider := {|
  provider_call_function := fun _ => Ok chat;
  disallowed_api_params := Provider_disallowed_api_params;
  translate_to_provider := translate_to_provider provider;
  translate_from_provider := translate_from_provider provider
|}.

Definition native_params : list (string * pyval) :=
  [("model", PyStr "m1"); ("prompt", PyStr "hi");
   ("temperature", PyFloat (2 # 10))].

End Stub.

(** ** Test doubles for the mode without assertions *)

Module Curried.

(** A call function of the shape line 91 of the source can run: called
    with the native parameters as one positional dict (bound to [model]) it
    returns the function that takes them as keywords.  Its signature
    declares the names of the native parameters. *)
Definition backend : pyobj :=
  py_function
    [("model", Stub.required); ("prompt", Stub.optional PyNone);
     ("temperature", Stub.optional PyNone)]
    (fun _ => Ok Stub.backend).

(** Tags its message as [Stub.provider] does. *)
Definition provider : Provider := {|
  provider_call_function := fun _ => Ok backend;
  disallowed_api_params := Provider_disallowed_api_params;
  translate_to_provider := translate_to_provider Stub.provider;
  translate_from_provider := translate_from_provider Stub.provider
|}.

(** Returns its message as a plain [str], whatever the origin. *)
Definition untagging_provider : Provider := {|
  provider_call_function := fun _ => Ok backend;
  disallowed_api_params := Provider_disallowed_api_params;
  translate_to_provider := translate_to_provider Stub.provider;
  translate_from_provider := fun provider_resp ell_call origin_id logger =>
    Ok ([mkMessage "assistant" [] (PyStr "hello")], [])
|}.

(** [Stub.ell_call] with [api_params={"top_p": 0.9}], a name no backend
    here declares. *)
Definition undeclared_call : EllCallParams := {|
  model := "m1";
  messages := [mkMessage "user" [] (PyStr "hi")];
  client := Stub.stub_client;
  tools := None;
  api_params := [("top_p", PyFloat (9 # 10))]
|}.

Definition undeclared_params : list (string * pyval) :=
  [("model", PyStr "m1"); ("prompt", PyStr "hi");
   ("top_p", PyFloat (9 # 10))].

End Curried.

(** ** What the validators are checked against *)

(** Every parameter of the signature that has no default and is not the
    keyword sink has an entry in [api_call_params]. *)
Definition all_required_present
    (provider_call_params : list (string * inspect_Parameter))
    (api_call_params : list (string * pyval)) : Prop :=
  ∀ name param,
    (name, param) ∈ provider_call_params →
    default param = None → kind param ≠ VAR_KEYWORD →
    name ∈ api_call_params.*1.

(** An entry of [api_call_params] that names a parameter of the signature
    and, where that parameter declares a type, holds an instance of it:
    [isinstance] returns, and returns true. *)
Definition entry_ok (provider_call_params : list (string * inspect_Parameter))
    (item : string * pyval) : Prop :=
  ∃ param, getitem provider_call_params item.1 = Ok param
           ∧ ∀ a, annotation param = Some a
                  → py_isinstance item.2 a = Ok true.

(** A message whose text is a provenance-tagged string recorded as coming
    from [origin_id]. *)
Definition tracked (origin_id : string) (message : Message) : Prop :=
  ∃ s, text message = PyLstr s (Some origin_id).

(** * Properties *)

(** ** Loops, assertions and lookups *)

Lemma for_each_Ok {A} (f : A -> result unit) (l : list A) :
  for_each f l = Ok tt ↔ Forall (fun x => f x = Ok tt) l.
Proof.
  induction l as [|x l IH]; simpl.
  - split; [constructor | reflexivity].
  - rewrite Forall_cons. destruct (f x) as [[]|e] eqn:Hx; simpl.
    + rewrite IH. tauto.
    + split; [discriminate | intros [? _]; discriminate].
Qed.

Lemma for_each_Raise {A} (f : A -> result unit) (l : list A) (e : exn) :
  for_each f l = Raise e ↔
  ∃ pre x post, l = pre ++ x :: post
                ∧ Forall (fun y => f y = Ok tt) pre ∧ f x = Raise e.
Proof.
  induction l as [|x l IH]; simpl.
  - split; [discriminate|].
    intros (pre & y & post & Hl & _). by destruct pre.
  - destruct (f x) as [[]|e'] eqn:Hx; simpl.
    + rewrite IH. split.
      * intros (pre & y & post & -> & Hpre & Hy).
        exists (x :: pre), y, post. repeat split; auto.
      * intros (pre & y & post & Hl & Hpre & Hy).
        destruct pre as [|z pre]; simpl in Hl; simplify_eq; [congruence|].
        apply Forall_cons in Hpre as [_ Hpre].
        exists pre, y, post. repeat split; auto.
    + split.
      * intros [= ->]. exists [], x, l. repeat split; auto.
      * intros (pre & y & post & Hl & Hpre & Hy).
        destruct pre as [|z pre]; simpl in Hl; simplify_eq; [congruence|].
        apply Forall_cons in Hpre as [Hz _]. congruence.
Qed.

Lemma contains_elem_of {V} (name : string) (d : list (string * V)) :
  contains name d = true ↔ name ∈ d.*1.
Proof.
  unfold contains. induction d as [|[k v] d IH]; simpl.
  - split; [discriminate | by intros ?%elem_of_nil].
  - rewrite orb_true_iff, IH, bool_decide_eq_true, elem_of_cons. naive_solver.
Qed.

Lemma contains_false {V} (name : string) (d : list (string * V)) :
  contains name d = false ↔ name ∉ d.*1.
Proof.
  rewrite <- contains_elem_of. destruct (contains name d); naive_solver.
Qed.

Lemma getitem_contains {V} (d : list (string * V)) (name : string) :
  contains name d = true ↔ ∃ v, getitem d name = Ok v.
Proof.
  unfold contains. induction d as [|[k v] d IH]; simpl.
  - split; [discriminate | by intros [? ?]].
  - case_bool_decide; simpl; [naive_solver | done].
Qed.

Lemma getitem_KeyError {V} (d : list (string * V)) (name : string) :
  contains name d = false → getitem d name = Raise (KeyError name).
Proof.
  unfold contains. induction d as [|[k v] d IH]; simpl; [done|].
  case_bool_decide; simpl; [discriminate | done].
Qed.

Lemma isinstance_lstr (v : pyval) :
  isinstance v _lstr = true ↔ ∃ s o, v = PyLstr s o.
Proof.
  destruct v; cbn; split; try discriminate; try naive_solver.
Qed.

(** ** [_validate_provider_call_params] *)

Lemma is_required_spec (param : inspect_Parameter) :
  is_required param = true ↔ default param = None ∧ kind param ≠ VAR_KEYWORD.
Proof.
  unfold is_required. destruct (default param); simpl.
  - split; [discriminate | intros [? _]; discriminate].
  - rewrite negb_true_iff, bool_decide_eq_false. tauto.
Qed.

Lemma elem_of_required_params ps (name : string) (param : inspect_Parameter) :
  (name, param) ∈ required_params ps ↔
  (name, param) ∈ ps ∧ default param = None ∧ kind param ≠ VAR_KEYWORD.
Proof.
  unfold required_params. rewrite list_elem_of_filter. simpl.
  rewrite is_required_spec. tauto.
Qed.

Lemma validate_unfold (api_call_params : list (string * pyval)) ps body :
  _validate_provider_call_params true api_call_params (Callable ps body) =
  (for_each (fun np => if contains np.1 api_call_params then Ok tt
                       else Raise (AssertionError (MissingRequiredParam np.1)))
            (required_params ps) ;;
   for_each (check_param true ps) api_call_params).
Proof. reflexivity. Qed.

(** The first loop passes exactly when the required parameters are all
    there. *)
Lemma required_loop_Ok (api_call_params : list (string * pyval)) ps :
  for_each (fun np : string * inspect_Parameter =>
              if contains np.1 api_call_params then Ok tt
              else Raise (AssertionError (MissingRequiredParam np.1)))
           (required_params ps) = Ok tt
  ↔ all_required_present ps api_call_params.
Proof.
  rewrite for_each_Ok, Forall_forall. unfold all_required_present. split.
  - intros H name param Hin Hd Hk.
    specialize (H (name, param)). simpl in H.
    apply contains_elem_of.
    destruct (contains name api_call_params); [done|].
    discriminate H. by apply elem_of_required_params.
  - intros H [name param] Hin. simpl.
    apply elem_of_required_params in Hin as (Hin & Hd & Hk).
    apply (H _ _ Hin Hd) in Hk. apply contains_elem_of in Hk. by rewrite Hk.
Qed.

(** The first loop can only fail with [MissingRequiredParam], and then for
    a required parameter that has no entry. *)
Lemma required_loop_Raise (api_call_params : list (string * pyval)) ps e :
  for_each (fun np : string * inspect_Parameter =>
              if contains np.1 api_call_params then Ok tt
              else Raise (AssertionError (MissingRequiredParam np.1)))
           (required_params ps) = Raise e
  → ∃ name param, e = AssertionError (MissingRequiredParam name)
                  ∧ (name, param) ∈ ps
                  ∧ default param = None ∧ kind param ≠ VAR_KEYWORD
                  ∧ name ∉ api_call_params.*1.
Proof.
  rewrite for_each_Raise.
  intros (pre & [name param] & post & Hl & _ & Hx). simpl in Hx.
  destruct (contains name api_call_params) eqn:Hc; [discriminate|].
  injection Hx as <-. exists name, param. split; [done|].
  assert ((name, param) ∈ required_params ps) as Hin.
  { rewrite Hl. apply elem_of_app. right. apply elem_of_cons. by left. }
  apply elem_of_required_params in Hin as (? & ? & ?).
  by apply contains_false in Hc.
Qed.

Lemma required_loop_cases (api_call_params : list (string * pyval)) ps :
  all_required_present ps api_call_params
  ∨ ∃ name param,
      for_each (fun np : string * inspect_Parameter =>
                  if contains np.1 api_call_params then Ok tt
                  else Raise (AssertionError (MissingRequiredParam np.1)))
               (required_params ps)
      = Raise (AssertionError (MissingRequiredParam name))
      ∧ (name, param) ∈ ps
      ∧ default param = None ∧ kind param ≠ VAR_KEYWORD
      ∧ name ∉ api_call_params.*1.
Proof.
  destruct (for_each _ (required_params ps)) as [[]|e] eqn:H.
  - left. by apply required_loop_Ok.
  - right. pose proof H as H'.
    apply required_loop_Raise in H' as (name & param & -> & ?).
    by exists name, param.
Qed.

Lemma py_isinstance_Raise (v : pyval) (a : annotation_obj) (e : exn) :
  py_isinstance v a = Raise e → ∃ msg, e = TypeError msg.
Proof.
  destruct a as [c|repr check]; simpl; [discriminate|].
  destruct (check v) as [b|msg]; [discriminate|]. intros [= <-]. eauto.
Qed.

(** The loop body on an entry whose name is declared with an annotation. *)
Lemma check_param_typed ps (name : string) (v : pyval)
    (param : inspect_Parameter) (a : annotation_obj) :
  getitem ps name = Ok param → annotation param = Some a →
  check_param true ps (name, v)
  = match py_isinstance v a with
    | Ok true => Ok tt
    | Ok false => Raise (AssertionError (TypeMismatch name a))
    | Raise e => Raise e
    end.
Proof.
  intros Hp Ha. unfold check_param.
  assert (contains name ps = true) as -> by (apply getitem_contains; eauto).
  simpl. rewrite Hp. simpl. rewrite Ha. simpl.
  by destruct (py_isinstance v a) as [[]|].
Qed.

Lemma check_param_untyped_Ok ps (name : string) (v : pyval)
    (param : inspect_Parameter) :
  getitem ps name = Ok param → annotation param = None →
  check_param true ps (name, v) = Ok tt.
Proof.
  intros Hp Ha. unfold check_param.
  assert (contains name ps = true) as -> by (apply getitem_contains; eauto).
  simpl. rewrite Hp. simpl. by rewrite Ha.
Qed.

Lemma check_param_Unexpected ps (name : string) (v : pyval) :
  name ∉ ps.*1 →
  check_param true ps (name, v) = Raise (AssertionError (UnexpectedParam name)).
Proof.
  intros Hc%contains_false. unfold check_param. by rewrite Hc.
Qed.

(** The outcomes of the loop body with assertions on. *)
Lemma check_param_Ok ps (item : string * pyval) :
  check_param true ps item = Ok tt ↔ entry_ok ps item.
Proof.
  destruct item as [name v]. unfold entry_ok. cbn [fst snd].
  destruct (contains name ps) eqn:Hc.
  - apply getitem_contains in Hc as [param Hp].
    destruct (annotation param) as [a|] eqn:Ha.
    + rewrite (check_param_typed _ _ _ _ _ Hp Ha). split.
      * intros H. exists param. split; [done|]. intros a' Ha'.
        rewrite Ha in Ha'. injection Ha' as <-.
        by destruct (py_isinstance v a) as [[]|].
      * intros (param' & Hp' & H). rewrite Hp in Hp'. injection Hp' as <-.
        by rewrite (H a Ha).
    + rewrite (check_param_untyped_Ok _ _ _ _ Hp Ha). split; [|done].
      intros _. exists param. split; [done|]. congruence.
  - apply contains_false in Hc as Hout.
    rewrite (check_param_Unexpected _ _ _ Hout). split; [discriminate|].
    intros (param & Hp & _).
    rewrite (getitem_KeyError _ _ Hc) in Hp. discriminate.
Qed.

Lemma check_param_Raise ps (name : string) (v : pyval) (e : exn) :
  check_param true ps (name, v) = Raise e ↔
  ((name ∉ ps.*1) ∧ e = AssertionError (UnexpectedParam name))
  ∨ ∃ param a, getitem ps name = Ok param ∧ annotation param = Some a
               ∧ ((py_isinstance v a = Ok false
                   ∧ e = AssertionError (TypeMismatch name a))
                  ∨ py_isinstance v a = Raise e).
Proof.
  destruct (contains name ps) eqn:Hc.
  - apply contains_elem_of in Hc as Hin.
    apply getitem_contains in Hc as [param Hp].
    destruct (annotation param) as [a|] eqn:Ha.
    + rewrite (check_param_typed _ _ _ _ _ Hp Ha). split.
      * intros H. right. exists param, a. split; [done|]. split; [done|].
        destruct (py_isinstance v a) as [[]|e']; [discriminate| |].
        -- injection H as <-. by left.
        -- injection H as <-. by right.
      * intros [[? _]|(p' & a' & Hp' & Ha' & H)]; [done|].
        rewrite Hp in Hp'. injection Hp' as <-.
        rewrite Ha in Ha'. injection Ha' as <-.
        destruct H as [[-> ->]| ->]; done.
    + rewrite (check_param_untyped_Ok _ _ _ _ Hp Ha). split; [discriminate|].
      intros [[? _]|(p' & a' & Hp' & Ha' & _)]; [done|]. congruence.
  - apply contains_false in Hc as Hout.
    rewrite (check_param_Unexpected _ _ _ Hout). split.
    + intros [= <-]. by left.
    + intros [[_ ->]|(p' & a' & Hp & _)]; [done|].
      rewrite (getitem_KeyError _ _ Hc) in Hp. discriminate.
Qed.

(** The second loop stops at the first entry that fails its check. *)
Lemma params_loop_Raise ps (api_call_params : list (string * pyval)) e :
  for_each (check_param true ps) api_call_params = Raise e ↔
  ∃ pre name v post,
    api_call_params = pre ++ (name, v) :: post ∧ Forall (entry_ok ps) pre
    ∧ (((name ∉ ps.*1) ∧ e = AssertionError (UnexpectedParam name))
       ∨ ∃ param a, getitem ps name = Ok param ∧ annotation param = Some a
                    ∧ ((py_isinstance v a = Ok false
                        ∧ e = AssertionError (TypeMismatch name a))
                       ∨ py_isinstance v a = Raise e)).
Proof.
  rewrite for_each_Raise. split.
  - intros (pre & [name v] & post & -> & Hpre & Hx).
    exists pre, name, v, post. split; [done|]. split.
    + eapply Forall_impl; [exact Hpre|]. intros x. by rewrite check_param_Ok.
    + by apply check_param_Raise.
  - intros (pre & name & v & post & -> & Hpre & Hx).
    exists pre, (name, v), post. split; [done|]. split.
    + eapply Forall_impl; [exact Hpre|]. intros x. by rewrite check_param_Ok.
    + by apply check_param_Raise.
Qed.

(** The second loop never reports a missing parameter. *)
Lemma params_loop_not_missing ps (api_call_params : list (string * pyval))
    (name : string) :
  for_each (check_param true ps) api_call_params
  ≠ Raise (AssertionError (MissingRequiredParam name)).
Proof.
  intros (? & ? & ? & ? & _ & _ & [[_ ?]|(? & ? & _ & _ & [[_ ?]|H])])
    %params_loop_Raise; try discriminate.
  apply py_isinstance_Raise in H as [? ?]. discriminate.
Qed.

Lemma validate_after_required ps body (api_call_params : list (string * pyval)) :
  all_required_present ps api_call_params →
  _validate_provider_call_params true api_call_params (Callable ps body)
  = for_each (check_param true ps) api_call_params.
Proof.
  intros H%required_loop_Ok. rewrite validate_unfold.
  unfold mbind, result_bind. by rewrite H.
Qed.

Lemma validate_missing ps body (api_call_params : list (string * pyval)) name :
  _validate_provider_call_params true api_call_params (Callable ps body)
  = Raise (AssertionError (MissingRequiredParam name))
  → ∃ param, (name, param) ∈ ps ∧ default param = None
             ∧ kind param ≠ VAR_KEYWORD ∧ name ∉ api_call_params.*1.
Proof.
  destruct (required_loop_cases api_call_params ps)
    as [Hall|(name' & param & Hloop & Hspec)].
  - rewrite (validate_after_required _ _ _ Hall).
    intros H. by apply params_loop_not_missing in H.
  - rewrite validate_unfold. unfold mbind, result_bind. rewrite Hloop.
    intros [= <-]. by exists param.
Qed.

Lemma validate_not_missing ps body (api_call_params : list (string * pyval)) e :
  _validate_provider_call_params true api_call_params (Callable ps body)
  = Raise e →
  (∀ name, e ≠ AssertionError (MissingRequiredParam name)) →
  all_required_present ps api_call_params.
Proof.
  intros Hv He.
  destruct (required_loop_cases api_call_params ps)
    as [Hall|(name' & param & Hloop & _)]; [done|].
  rewrite validate_unfold in Hv. unfold mbind, result_bind in Hv.
  rewrite Hloop in Hv. injection Hv as <-. by destruct (He name').
Qed.

Lemma validate_missing_intro ps body (api_call_params : list (string * pyval))
    (name : string) (param : inspect_Parameter) :
  (name, param) ∈ ps → default param = None → kind param ≠ VAR_KEYWORD →
  name ∉ api_call_params.*1 →
  ∃ missing,
    _validate_provider_call_params true api_call_params (Callable ps body)
    = Raise (AssertionError (MissingRequiredParam missing)).
Proof.
  intros Hin Hd Hk Hout.
  destruct (required_loop_cases api_call_params ps)
    as [Hall|(name' & param' & Hloop & _)].
  - destruct Hout. by apply (Hall name param).
  - exists name'. rewrite validate_unfold.
    unfold mbind, result_bind. by rewrite Hloop.
Qed.

(** C4: with assertions on, validation fails with [MissingRequiredParam]
    exactly when some parameter of the callable that has no default and is
    not the keyword sink has no entry in the native parameters; the name
    reported is such a parameter; and when all of them have an entry the
    required-parameter loop passes, so that the outcome is that of the
    per-entry loop. *)
Theorem validate_missing_required_iff
    (api_call_params : list (string * pyval)) ps body :
  ((∃ name,
      _validate_provider_call_params true api_call_params (Callable ps body)
      = Raise (AssertionError (MissingRequiredParam name)))
   ↔ ∃ name param, (name, param) ∈ ps ∧ default param = None
                   ∧ kind param ≠ VAR_KEYWORD ∧ name ∉ api_call_params.*1)
  ∧ (∀ name,
       _validate_provider_call_params true api_call_params (Callable ps body)
       = Raise (AssertionError (MissingRequiredParam name))
       → ∃ param, (name, param) ∈ ps ∧ default param = None
                  ∧ kind param ≠ VAR_KEYWORD ∧ name ∉ api_call_params.*1)
  ∧ (all_required_present ps api_call_params →
     _validate_provider_call_params true api_call_params (Callable ps body)
     = for_each (check_param true ps) api_call_params).
Proof.
  split; [|split].
  - split.
    + intros [name (param & H)%validate_missing]. by exists name, param.
    + intros (name & param & Hin & Hd & Hk & Hout).
      by apply (validate_missing_intro _ _ _ name param).
  - intros name. apply validate_missing.
  - apply validate_after_required.
Qed.

(** P2 of the spec, on [def f(a, b)]. *)
Lemma validate_missing_required_iff_witness :
  _validate_provider_call_params true [("a", PyInt 1)] Stub.f
  = Raise (AssertionError (MissingRequiredParam "b"))
  ∧ _validate_provider_call_params true [("a", PyInt 1); ("b", PyInt 2)] Stub.f
    = Ok tt.
Proof.
  split.
  - reflexivity.
  - pose proof (validate_missing_required_iff
                  [("a", PyInt 1); ("b", PyInt 2)]
                  [("a", Stub.required); ("b", Stub.required)]
                  (fun args kwargs =>
                     bind_arguments
                       [("a", Stub.required); ("b", Stub.required)]
                       args kwargs ≫= fun _ => Ok (Data PyNone)))
      as (_ & _ & H).
    unfold Stub.f, py_function. rewrite H; [reflexivity|].
    intros name param Hin _ _.
    apply elem_of_cons in Hin as [[= -> _]|Hin]; [set_solver|].
    apply elem_of_cons in Hin as [[= -> _]|Hin]; [set_solver|].
    by apply elem_of_nil in Hin.
Defined.

(** An entry whose name the signature does not declare makes validation
    fail, whatever else the signature declares. *)
Lemma validate_undeclared_fails ps body
    (api_call_params : list (string * pyval)) (name : string) :
  name ∈ api_call_params.*1 → name ∉ ps.*1 →
  ∃ e, _validate_provider_call_params true api_call_params (Callable ps body)
       = Raise e
       ∧ ((∃ v, e = AssertionError v) ∨ ∃ msg, e = TypeError msg).
Proof.
  intros Hin Hout.
  destruct (required_loop_cases api_call_params ps)
    as [Hall|(name' & param & Hloop & _)].
  - rewrite (validate_after_required _ _ _ Hall).
    destruct (for_each _ api_call_params) as [[]|e] eqn:Hloop.
    + apply for_each_Ok in Hloop. rewrite Forall_forall in Hloop.
      apply list_elem_of_fmap in Hin as ([n v] & -> & Hitem).
      apply Hloop in Hitem. simpl in Hout.
      by rewrite (check_param_Unexpected _ _ _ Hout) in Hitem.
    + exists e. split; [done|].
      apply params_loop_Raise in Hloop
        as (? & n & ? & ? & _ & _
            & [[_ ->]|(? & a & _ & _ & [[_ ->]|H%py_isinstance_Raise])]);
        eauto.
  - rewrite validate_unfold. unfold mbind, result_bind. rewrite Hloop. eauto.
Qed.

(** C3 (as amended): with assertions on, validation fails with
    [UnexpectedParam name] exactly when the required parameters are all
    present and [name] is the first entry of the native parameters, in
    iteration order, that fails its check, and the signature declares no
    parameter of that name.  Nothing in this depends on the kinds of the
    declared parameters: a keyword sink in the signature does not suppress
    the failure, and an entry with an undeclared name always makes
    validation fail, with an assertion failure or, where an entry before it
    is declared with an annotation [isinstance] rejects, with the
    [TypeError] of that. *)
Theorem validate_unexpected_param_iff
    (api_call_params : list (string * pyval)) ps body (name : string) :
  (_validate_provider_call_params true api_call_params (Callable ps body)
   = Raise (AssertionError (UnexpectedParam name))
   ↔ all_required_present ps api_call_params
     ∧ ∃ pre v post, api_call_params = pre ++ (name, v) :: post
                     ∧ Forall (entry_ok ps) pre ∧ name ∉ ps.*1)
  ∧ (name ∈ api_call_params.*1 → name ∉ ps.*1 →
     ∃ e, _validate_provider_call_params true api_call_params
            (Callable ps body) = Raise e
          ∧ ((∃ v, e = AssertionError v) ∨ ∃ msg, e = TypeError msg)).
Proof.
  split; [|apply validate_undeclared_fails]. split.
  - intros Hv. assert (all_required_present ps api_call_params) as Hall.
    { eapply validate_not_missing; [exact Hv|]. discriminate. }
    split; [done|]. rewrite (validate_after_required _ _ _ Hall) in Hv.
    apply params_loop_Raise in Hv
      as (pre & n & v & post & -> & Hpre & [[Hout [= <-]]|H]).
    + by exists pre, v, post.
    + destruct H as (? & ? & _ & _ & [[_ ?]|H%py_isinstance_Raise]);
        [discriminate|]. destruct H as [? ?]. discriminate.
  - intros (Hall & pre & v & post & -> & Hpre & Hout).
    rewrite (validate_after_required _ _ _ Hall). apply params_loop_Raise.
    exists pre, name, v, post. split; [done|]. split; [done|]. by left.
Qed.

(** Why the failure for an undeclared name need not be an assertion
    failure: on [def f(a: typing.Any, n: typing.Optional[int] = None)] the
    entry for [a] raises before the undeclared [c] is looked at. *)
Lemma undeclared_after_uncheckable :
  _validate_provider_call_params true [("a", PyInt 1); ("c", PyInt 3)]
                                 Stub.f_generic
  = Raise (TypeError "typing.Any cannot be used with isinstance()").
Proof. reflexivity. Qed.

(** The signature of [f_kwargs] has a keyword sink. *)
Lemma f_kwargs_declares_sink :
  _call_params Stub.f_kwargs
  = Ok [("a", Stub.required); ("kwargs", mkParameter VAR_KEYWORD None None)].
Proof. reflexivity. Qed.

Lemma validate_unexpected_param_iff_witness :
  _validate_provider_call_params true [("a", PyInt 1); ("c", PyInt 3)] Stub.f_kwargs
  = Raise (AssertionError (UnexpectedParam "c")).
Proof.
  apply (validate_unexpected_param_iff
           [("a", PyInt 1); ("c", PyInt 3)]
           [("a", Stub.required); ("kwargs", mkParameter VAR_KEYWORD None None)]
           (fun args kwargs =>
              bind_arguments
                [("a", Stub.required);
                 ("kwargs", mkParameter VAR_KEYWORD None None)]
                args kwargs ≫= fun _ => Ok (Data PyNone)) "c").
  split.
  - intros name param Hin Hd Hk.
    apply elem_of_cons in Hin as [[= -> _]|Hin]; [set_solver|].
    apply elem_of_cons in Hin as [[= -> ->]|Hin]; [done|].
    by apply elem_of_nil in Hin.
  - exists [("a", PyInt 1)], (PyInt 3), []. split; [reflexivity|]. split.
    + constructor; [|constructor]. exists Stub.required. split; [reflexivity|].
      discriminate.
    + set_solver.
Defined.

(** C3 (as stated) fails: [f_kwargs] declares the keyword sink [kwargs], and
    validation of [{a: 1, c: 3}] against it still fails with
    [UnexpectedParam "c"]. *)
Lemma keyword_sink_does_not_suppress_unexpected :
  (∃ name param, _call_params Stub.f_kwargs = Ok [("a", Stub.required); (name, param)]
                 ∧ kind param = VAR_KEYWORD)
  ∧ ¬ (∀ name,
         _validate_provider_call_params true [("a", PyInt 1); ("c", PyInt 3)]
                                        Stub.f_kwargs
         ≠ Raise (AssertionError (UnexpectedParam name))).
Proof.
  split.
  - by exists "kwargs", (mkParameter VAR_KEYWORD None None).
  - intros H. by apply (H "c").
Qed.








(** C10: a variadic positional parameter (it has no default, and its kind
    is not the keyword sink's) is among the required parameters, so that,
    with assertions on, validation fails with [MissingRequiredParam] unless
    the native parameters have an entry under the parameter's own name; and
    with such an entry the failure is never reported for that name. *)
Theorem var_positional_is_required
    (api_call_params : list (string * pyval)) ps body (name : string)
    (param : inspect_Parameter) :
  (name, param) ∈ ps → kind param = VAR_POSITIONAL → default param = None →
  (name, param) ∈ required_params ps
  ∧ (name ∉ api_call_params.*1 →
     ∃ missing,
       _validate_provider_call_params true api_call_params (Callable ps body)
       = Raise (AssertionError (MissingRequiredParam missing)))
  ∧ (name ∈ api_call_params.*1 →
     _validate_provider_call_params true api_call_params (Callable ps body)
     ≠ Raise (AssertionError (MissingRequiredParam name))).
Proof.
  intros Hin Hk Hd.
  assert (kind param ≠ VAR_KEYWORD) as Hk' by (rewrite Hk; discriminate).
  split; [by apply elem_of_required_params|]. split.
  - intros Hout. by apply (validate_missing_intro _ _ _ name param).
  - intros Hpresent (? & _ & _ & _ & Hout)%validate_missing. done.
Qed.

(** On [f_args]: [{a: 1}] is rejected for want of an entry named [args]. *)
Lemma var_positional_is_required_witness :
  _validate_provider_call_params true [("a", PyInt 1)] Stub.f_args
  = Raise (AssertionError (MissingRequiredParam "args"))
  ∧ ∃ missing,
      _validate_provider_call_params true [("a", PyInt 1)] Stub.f_args
      = Raise (AssertionError (MissingRequiredParam missing)).
Proof.
  split; [reflexivity|].
  apply (var_positional_is_required
           [("a", PyInt 1)]
           [("a", Stub.required); ("args", mkParameter VAR_POSITIONAL None None)]
           (fun args kwargs =>
              bind_arguments
                [("a", Stub.required);
                 ("args", mkParameter VAR_POSITIONAL None None)]
                args kwargs ≫= fun _ => Ok (Data PyNone))
           "args" (mkParameter VAR_POSITIONAL None None)).
  - set_solver.
  - reflexivity.
  - reflexivity.
  - set_solver.
Defined.

(** ** [_validate_messages_are_tracked] *)

Lemma check_message_Ok (origin_id : string) (message : Message) :
  check_message true origin_id message = Ok tt ↔ tracked origin_id message.
Proof.
  unfold check_message, tracked. destruct (text message); cbn;
    try (split; [discriminate | by intros [? ?]]).
  case_bool_decide as Ho; simpl.
  - subst. split; eauto.
  - split; [discriminate|]. intros [? [= _ ?]]. congruence.
Qed.

Lemma check_message_Raise (origin_id : string) (message : Message) e :
  check_message true origin_id message = Raise e →
  ∃ why, e = AssertionError (UntrackedMessage why).
Proof.
  unfold check_message.
  destruct (isinstance (text message) _lstr); cbn.
  - case_bool_decide; cbn; [discriminate|]. intros [= <-]. eauto.
  - intros [= <-]. eauto.
Qed.

(** C6: without an origin the check does nothing, for every list of
    messages and in either mode; with an origin and assertions on it fails
    with [UntrackedMessage] exactly when some message's text is not a tagged
    string recorded as coming from that origin, and succeeds exactly when
    every message's text is one. *)
Theorem validate_messages_are_tracked_spec (messages : list Message) :
  (∀ __debug__,
     _validate_messages_are_tracked __debug__ messages None = Ok tt)
  ∧ ∀ origin_id,
      ((∃ why,
          _validate_messages_are_tracked true messages (Some origin_id)
          = Raise (AssertionError (UntrackedMessage why)))
       ↔ ∃ message, message ∈ messages ∧ ¬ tracked origin_id message)
      ∧ (_validate_messages_are_tracked true messages (Some origin_id) = Ok tt
         ↔ Forall (tracked origin_id) messages).
Proof.
  split; [reflexivity|]. intros origin_id. simpl.
  assert (for_each (check_message true origin_id) messages = Ok tt
          ↔ Forall (tracked origin_id) messages) as HOk.
  { rewrite for_each_Ok. apply Forall_iff. intros m. apply check_message_Ok. }
  split; [|exact HOk]. split.
  - intros [why Hv]. apply for_each_Raise in Hv as (pre & m & post & -> & _ & Hm).
    exists m. split; [set_solver|].
    intros Ht%check_message_Ok. congruence.
  - intros (m & Hin & Hm). clear HOk.
    destruct (for_each _ messages) as [[]|e] eqn:Hv.
    + apply for_each_Ok in Hv. rewrite Forall_forall in Hv.
      destruct Hm. apply check_message_Ok. by apply Hv.
    + apply for_each_Raise in Hv as (? & m' & ? & _ & _ & Hm').
      apply check_message_Raise in Hm' as [why ->]. eauto.
Qed.

(** P5 of the spec at the level of the validator: a message stamped with
    [run-42] passes, a plain [str] or another origin does not. *)
Lemma validate_messages_are_tracked_spec_witness :
  _validate_messages_are_tracked true
    [mkMessage "assistant" [] (PyLstr "hello" (Some "run-42"))] (Some "run-42")
  = Ok tt
  ∧ ∃ why,
      _validate_messages_are_tracked true
        [mkMessage "assistant" [] (PyLstr "hello" (Some "run-42"));
         mkMessage "assistant" [] (PyStr "bye")] (Some "run-42")
      = Raise (AssertionError (UntrackedMessage why)).
Proof.
  split.
  - apply validate_messages_are_tracked_spec.
    constructor; [|constructor]. by exists "hello".
  - apply validate_messages_are_tracked_spec.
    exists (mkMessage "assistant" [] (PyStr "bye")). split; [set_solver|].
    intros [s Hs]. discriminate Hs.
Defined.

(** ** [Provider.available_api_params] *)

(** C8: for a provider whose call function is a callable with parameters
    [ps], the available parameters are the names of [ps] minus the
    disallowed ones, for every hint; so no disallowed name is ever
    available, and with the base-class disallowed set (or a larger one)
    [model], [messages] and [tools] are not, whether or not the call
    function declares them. *)
Theorem available_api_params_spec (self : Provider)
    (hint : option (list (string * pyval))) ps body :
  provider_call_function self hint = Ok (Callable ps body) →
  available_api_params self hint
  = Ok (list_to_set ps.*1 ∖ disallowed_api_params self)
  ∧ ∀ available : gset string,
      available_api_params self hint = Ok available →
      (∀ name, name ∈ available
               ↔ name ∈ ps.*1 ∧ name ∉ disallowed_api_params self)
      ∧ (Provider_disallowed_api_params ⊆ disallowed_api_params self →
         ("model" ∉ available) ∧ ("messages" ∉ available) ∧ ("tools" ∉ available)).
Proof.
  intros Hfn. unfold available_api_params. rewrite Hfn. simpl.
  split; [reflexivity|]. intros available [= <-]. split.
  - intros name. rewrite elem_of_difference, elem_of_list_to_set. tauto.
  - unfold Provider_disallowed_api_params. intros Hsub. set_solver.
Qed.

(** P7 of the spec on a call function that declares [model], [messages],
    [tools] and [temperature]: only [temperature] is available. *)
Lemma available_api_params_spec_witness :
  available_api_params Stub.chat_provider None = Ok {[ "temperature" ]}
  ∧ ∀ available : gset string,
      available_api_params Stub.chat_provider None = Ok available →
      ("model" ∉ available) ∧ ("messages" ∉ available) ∧ ("tools" ∉ available).
Proof.
  destruct (available_api_params_spec Stub.chat_provider None
              [("model", Stub.required); ("messages", Stub.required);
               ("tools", Stub.optional PyNone);
               ("temperature", Stub.optional (PyFloat (7 # 10)))]
              (fun args kwargs =>
                 bind_arguments
                   [("model", Stub.required); ("messages", Stub.required);
                    ("tools", Stub.optional PyNone);
                    ("temperature", Stub.optional (PyFloat (7 # 10)))]
                   args kwargs ≫= fun _ => Ok (Data PyNone))
              eq_refl) as [Heq Hall].
  split.
  - rewrite Heq. reflexivity.
  - intros available Ha. by apply (Hall available Ha).
Defined.

(** ** [Provider.call] *)

(** With assertions on, the first line of [call] raises [TypeError] for
    every provider and every call: the operand of [not in] is the keys view
    of [api_params], and a set hashes the operand of a membership test. *)
Lemma check_disallowed_debug (self : Provider) (ell_call : EllCallParams) :
  check_disallowed true self ell_call
  = Raise (TypeError "unhashable type: 'dict_keys'").
Proof. reflexivity. Qed.

(** With assertions off the line is not there. *)
Lemma check_disallowed_optimized (self : Provider) (ell_call : EllCallParams) :
  check_disallowed false self ell_call = Ok tt.
Proof. reflexivity. Qed.

(** X7: with assertions on, [call] raises the [TypeError] of its first
    line for every provider, every call description, origin and logger, and
    its log is left as it was: no provider method is run and no result is
    ever returned. *)
Lemma call_debug (self : Provider) (ell_call : EllCallParams)
    (origin_id : option string) (logger : option pyval) (tr : list event) :
  call true self ell_call origin_id logger tr
  = (Raise (TypeError "unhashable type: 'dict_keys'"), tr).
Proof. reflexivity. Qed.

(** C7 (as amended): in either mode, for every provider and every call,
    whatever the keys of [api_params], the first line of [call] does not
    fail with an assertion error, [DisallowedParam] included; and [call]
    itself never stops with an assertion error before it has reached
    provider code. *)
Theorem disallowed_branch_unreachable (__debug__ : bool) (self : Provider)
    (ell_call : EllCallParams) (v : ContractViolation) :
  check_disallowed __debug__ self ell_call ≠ Raise (AssertionError v)
  ∧ ∀ origin_id logger tr,
      call __debug__ self ell_call origin_id logger tr
      ≠ (Raise (AssertionError v), tr).
Proof.
  split.
  - destruct __debug__; discriminate.
  - intros origin_id logger tr. destruct __debug__; [discriminate|].
    unfold call. rewrite check_disallowed_optimized.
    unfold mbind, M_bind, lift, extern.
    assert (∀ (r : result (list Message * list (string * pyval) * Metadata))
              (l : list event),
              (r, tr ++ EvTranslateToProvider ell_call :: l)
              ≠ (Raise (AssertionError v), tr)) as Hlog.
    { intros r l [= _ Htr].
      apply (f_equal length) in Htr. rewrite length_app in Htr.
      simpl in Htr. lia. }
    destruct (translate_to_provider self ell_call) as [final|e];
      [|apply (Hlog _ [])].
    repeat match goal with
    | |- context [match ?r with Ok _ => _ | Raise _ => _ end] =>
        destruct r as [?|?]
    | |- context [let '(_, _) := ?p in _] => destruct p
    end;
    rewrite <- ?(assoc_L (++)); simpl; apply Hlog.
Qed.

(** C7 (as stated) fails: with assertions on, the first line of [call] does
    not pass, neither for keys that are disallowed names nor for keys that
    are not. *)
Lemma disallowed_assertion_does_not_pass :
  check_disallowed true Stub.provider Stub.override_call ≠ Ok tt
  ∧ check_disallowed true Stub.provider Stub.ell_call ≠ Ok tt.
Proof. split; discriminate. Qed.

(** What a successful [call] has done: the call function [fn] was called
    once, with the native parameters as one positional dict; what that
    returned was called with the native parameters as keywords; and the
    result of this second call is what [translate_from_provider] was
    given. *)
Lemma call_Ok_inv (__debug__ : bool) (self : Provider)
    (ell_call : EllCallParams) (origin_id : option string)
    (logger : option pyval) (tr tr' : list event) messages final metadata :
  call __debug__ self ell_call origin_id logger tr
  = (Ok (messages, final, metadata), tr') →
  ∃ fn inner provider_resp,
    translate_to_provider self ell_call = Ok final
    ∧ provider_call_function self (Some final) = Ok fn
    ∧ py_call fn [PyDict final] [] = Ok inner
    ∧ py_call inner [] final = Ok provider_resp
    ∧ translate_from_provider self provider_resp ell_call origin_id logger
      = Ok (messages, metadata)
    ∧ tr' = tr ++ [EvTranslateToProvider ell_call;
                   EvProviderCallFunction final;
                   EvCall fn [PyDict final] [];
                   EvCall inner [] final;
                   EvTranslateFromProvider provider_resp].
Proof.
  unfold call, mbind, M_bind, lift, extern.
  destruct (check_disallowed __debug__ self ell_call); [|discriminate].
  destruct (translate_to_provider self ell_call) as [final'|]; [|discriminate].
  destruct (provider_call_function self (Some final')) as [fn|] eqn:Hfn;
    [|discriminate].
  destruct (_validate_provider_call_params __debug__ final' fn); [|discriminate].
  destruct (py_call fn [PyDict final'] []) as [inner|] eqn:Hinner;
    [|discriminate].
  destruct (py_call inner [] final') as [resp|] eqn:Hresp; [|discriminate].
  destruct (translate_from_provider self resp ell_call origin_id logger)
    as [[ms md]|] eqn:Hfrom; [|discriminate].
  destruct (_validate_messages_are_tracked __debug__ ms origin_id);
    [|discriminate].
  intros [= -> -> -> <-]. exists fn, inner, resp.
  rewrite <- !(assoc_L (++)). by repeat split.
Qed.

(** C1, on the spec's P6: with [api_params = {"model": "other"}] and
    assertions on, [call] stops before any provider code has run, with
    [TypeError] and not with [DisallowedParam]; it stops in the same way on
    a call whose keys are all allowed; and with assertions off the
    override reaches the call function. *)
Theorem override_not_rejected_as_disallowed :
  call true Stub.provider Stub.override_call None None []
  = (Raise (TypeError "unhashable type: 'dict_keys'"), [])
  ∧ call true Stub.provider Stub.ell_call None None []
    = (Raise (TypeError "unhashable type: 'dict_keys'"), [])
  ∧ call false Stub.provider Stub.override_call None None []
    = (Raise (TypeError "missing required argument: 'prompt'"),
       [EvTranslateToProvider Stub.override_call;
        EvProviderCallFunction
          [("model", PyStr "other"); ("prompt", PyStr "hi")];
        EvCall Stub.backend
          [PyDict [("model", PyStr "other"); ("prompt", PyStr "hi")]] []]).
Proof. repeat split. Qed.

(** C2, on the spec's scenario: the native parameters are the expected
    ones and pass validation, and calling the stub with them as keywords
    would return; but [call] does not return a message in either mode.  With
    assertions on it stops on its first line; with assertions off it calls
    the stub with the native parameters as a single positional dict, which
    the stub rejects for want of [prompt]. *)
Theorem stub_scenario_does_not_succeed :
  translate_to_provider Stub.provider Stub.ell_call = Ok Stub.native_params
  ∧ _validate_provider_call_params true Stub.native_params Stub.backend = Ok tt
  ∧ py_call Stub.backend [] Stub.native_params
    = Ok (Data (PyDict [("text", PyStr "hello")]))
  ∧ call true Stub.provider Stub.ell_call (Some "run-42") None []
    = (Raise (TypeError "unhashable type: 'dict_keys'"), [])
  ∧ call false Stub.provider Stub.ell_call (Some "run-42") None []
    = (Raise (TypeError "missing required argument: 'prompt'"),
       [EvTranslateToProvider Stub.ell_call;
        EvProviderCallFunction Stub.native_params;
        EvCall Stub.backend [PyDict Stub.native_params] []]).
Proof. repeat split. Qed.

(** C9: whenever [call] gets as far as calling the call function and
    either of the two calls it makes there raises, in either mode, [call]
    raises that same exception; the log ends with the call that raised, so
    nothing was called again and [translate_from_provider] was not
    reached. *)
Theorem call_propagates_backend_error (__debug__ : bool) (self : Provider)
    (ell_call : EllCallParams) (origin_id : option string)
    (logger : option pyval) (tr : list event)
    (final : list (string * pyval)) (fn : pyobj) (e : exn) :
  check_disallowed __debug__ self ell_call = Ok tt →
  translate_to_provider self ell_call = Ok final →
  provider_call_function self (Some final) = Ok fn →
  _validate_provider_call_params __debug__ final fn = Ok tt →
  (py_call fn [PyDict final] [] = Raise e
   → call __debug__ self ell_call origin_id logger tr
     = (Raise e, tr ++ [EvTranslateToProvider ell_call;
                        EvProviderCallFunction final;
                        EvCall fn [PyDict final] []]))
  ∧ (∀ inner,
       py_call fn [PyDict final] [] = Ok inner →
       py_call inner [] final = Raise e →
       call __debug__ self ell_call origin_id logger tr
       = (Raise e, tr ++ [EvTranslateToProvider ell_call;
                          EvProviderCallFunction final;
                          EvCall fn [PyDict final] [];
                          EvCall inner [] final])).
Proof.
  intros Hcheck Hto Hfn Hvalid.
  unfold call, mbind, M_bind, lift, extern.
  rewrite Hcheck, Hto, Hfn, Hvalid. split.
  - intros ->. by rewrite <- !(assoc_L (++)).
  - intros inner -> ->. by rewrite <- !(assoc_L (++)).
Qed.

(** A backend that times out, run with assertions off: the caller sees the
    backend's own exception. *)
Lemma call_propagates_backend_error_witness :
  call false Stub.failing_provider Stub.ell_call None None []
  = (Raise Stub.connection_error,
     [EvTranslateToProvider Stub.ell_call;
      EvProviderCallFunction Stub.native_params;
      EvCall Stub.failing_backend [PyDict Stub.native_params] []]).
Proof.
  apply (call_propagates_backend_error false Stub.failing_provider
           Stub.ell_call None None [] Stub.native_params
           Stub.failing_backend Stub.connection_error);
    reflexivity.
Defined.

(** * Further properties of the validators *)

Lemma validate_not_callable (__debug__ : bool)
    (api_call_params : list (string * pyval)) (v : pyval) :
  _validate_provider_call_params __debug__ api_call_params (Data v)
  = Raise (TypeError "object is not a callable object").
Proof. reflexivity. Qed.

Lemma validate_Ok_inv (api_call_params : list (string * pyval))
    (call : pyobj) :
  _validate_provider_call_params true api_call_params call = Ok tt →
  ∃ ps body, call = Callable ps body
             ∧ all_required_present ps api_call_params
             ∧ Forall (entry_ok ps) api_call_params.
Proof.
  destruct call as [v|ps body]; [by rewrite validate_not_callable|].
  intros Hv. exists ps, body. split; [done|].
  destruct (required_loop_cases api_call_params ps)
    as [Hall|(name & param & Hloop & _)].
  - split; [done|]. rewrite (validate_after_required _ _ _ Hall) in Hv.
    apply for_each_Ok in Hv. eapply Forall_impl; [exact Hv|].
    intros item. by rewrite check_param_Ok.
  - rewrite validate_unfold in Hv. unfold mbind, result_bind in Hv.
    rewrite Hloop in Hv. discriminate.
Qed.

(** X1: with assertions on, validation passes exactly when the call
    function is a callable, every parameter of it that has no default and
    is not the keyword sink has an entry, and every entry names a declared
    parameter and, where that parameter declares a type, holds an instance
    of it. *)
Theorem validate_Ok_iff (api_call_params : list (string * pyval))
    (call : pyobj) :
  _validate_provider_call_params true api_call_params call = Ok tt
  ↔ ∃ ps body, call = Callable ps body
               ∧ all_required_present ps api_call_params
               ∧ Forall (entry_ok ps) api_call_params.
Proof.
  split; [apply validate_Ok_inv|].
  intros (ps & body & -> & Hall & Hentries).
  rewrite (validate_after_required _ _ _ Hall). apply for_each_Ok.
  eapply Forall_impl; [exact Hentries|].
  intros item. by rewrite check_param_Ok.
Qed.

Lemma validate_Ok_iff_witness :
  _validate_provider_call_params true Stub.native_params Stub.backend = Ok tt.
Proof.
  apply validate_Ok_iff. eexists _, _. split; [reflexivity|]. split.
  - intros name param Hin Hd Hk.
    apply elem_of_cons in Hin as [[= -> _]|Hin]; [set_solver|].
    apply elem_of_cons in Hin as [[= -> _]|Hin]; [set_solver|].
    apply elem_of_cons in Hin as [[= -> ->]|Hin]; [discriminate|].
    by apply elem_of_nil in Hin.
  - repeat constructor.
    + exists Stub.required. split; [reflexivity | discriminate].
    + exists Stub.required. split; [reflexivity | discriminate].
    + exists (Stub.optional (PyFloat (7 # 10))).
      split; [reflexivity | discriminate].
Defined.

(** X2: with assertions on, validating against a callable fails in one of
    four ways only: with one of the three assertion failures of the
    function, or with the [TypeError] that [isinstance] raises on the
    annotation of a declared entry.  The signature lookup of the second loop
    is guarded by the assertion before it and never raises [KeyError].  A
    name reported missing is a declared parameter; a name reported
    unexpected or mistyped is a key of the native parameters. *)
Theorem validate_failure_kinds (api_call_params : list (string * pyval))
    ps body (e : exn) :
  _validate_provider_call_params true api_call_params (Callable ps body)
  = Raise e →
  ∃ name,
    (e = AssertionError (MissingRequiredParam name) ∧ name ∈ ps.*1
     ∧ name ∉ api_call_params.*1)
    ∨ (e = AssertionError (UnexpectedParam name)
       ∧ name ∈ api_call_params.*1 ∧ name ∉ ps.*1)
    ∨ (∃ a param, e = AssertionError (TypeMismatch name a)
                  ∧ name ∈ api_call_params.*1
                  ∧ getitem ps name = Ok param ∧ annotation param = Some a)
    ∨ (∃ v a param msg, e = TypeError msg
                        ∧ (name, v) ∈ api_call_params
                        ∧ getitem ps name = Ok param
                        ∧ annotation param = Some a
                        ∧ py_isinstance v a = Raise e).
Proof.
  intros Hv.
  destruct (required_loop_cases api_call_params ps)
    as [Hall|(name & param & Hloop & Hin & _ & _ & Hout)].
  - rewrite (validate_after_required _ _ _ Hall) in Hv.
    apply params_loop_Raise in Hv
      as (pre & name & v & post & -> & _ & [[Hout ->]|H]).
    + exists name. right. left. split; [done|]. split; [|done].
      rewrite fmap_app, fmap_cons. set_solver.
    + destruct H as (param & a & Hp & Ha & [[_ ->]|Hi]).
      * exists name. right. right. left. exists a, param.
        split; [done|]. split; [|done].
        rewrite fmap_app, fmap_cons. set_solver.
      * exists name. right. right. right.
        destruct (py_isinstance_Raise _ _ _ Hi) as [msg ->].
        exists v, a, param, msg. split; [done|]. split; [|done].
        set_solver.
  - rewrite validate_unfold in Hv. unfold mbind, result_bind in Hv.
    rewrite Hloop in Hv. injection Hv as <-.
    exists name. left. split; [done|]. split; [|done].
    apply list_elem_of_fmap. by exists (name, param).
Qed.

(** On [def f(a: typing.Any, n: typing.Optional[int] = None)]: any value
    for [a] raises the [TypeError] of [isinstance]. *)
Lemma validate_failure_kinds_witness :
  _validate_provider_call_params true [("a", PyInt 1)] Stub.f_generic
  = Raise (TypeError "typing.Any cannot be used with isinstance()")
  ∧ ∃ name,
      (TypeError "typing.Any cannot be used with isinstance()"
       = AssertionError (MissingRequiredParam name)
       ∧ name ∈ Stub.generic_sig.*1 ∧ name ∉ ["a"])
      ∨ (TypeError "typing.Any cannot be used with isinstance()"
         = AssertionError (UnexpectedParam name)
         ∧ name ∈ ["a"] ∧ name ∉ Stub.generic_sig.*1)
      ∨ (∃ a param,
           TypeError "typing.Any cannot be used with isinstance()"
           = AssertionError (TypeMismatch name a)
           ∧ name ∈ ["a"]
           ∧ getitem Stub.generic_sig name = Ok param
           ∧ annotation param = Some a)
      ∨ (∃ v a param msg,
           TypeError "typing.Any cannot be used with isinstance()"
           = TypeError msg
           ∧ (name, v) ∈ [("a", PyInt 1)]
           ∧ getitem Stub.generic_sig name = Ok param
           ∧ annotation param = Some a
           ∧ py_isinstance v a
             = Raise (TypeError "typing.Any cannot be used with isinstance()")).
Proof.
  split; [reflexivity|].
  apply (validate_failure_kinds
           [("a", PyInt 1)] Stub.generic_sig
           (fun args kwargs =>
              bind_arguments Stub.generic_sig args kwargs
              ≫= fun _ => Ok (Data PyNone))).
  reflexivity.
Defined.

(** X13: an entry declared with an annotation that [isinstance] rejects
    (typing.Any, a subscripted generic, a string) stops validation with the
    [TypeError] of [isinstance] when the loop reaches it: whatever value it
    holds, the required parameters being present and the entries before it
    passing, neither [TypeMismatch] nor success is the outcome. *)
Theorem validate_uncheckable_annotation
    (pre post : list (string * pyval)) ps body (name : string) (v : pyval)
    (param : inspect_Parameter) (a : annotation_obj) (e : exn) :
  all_required_present ps (pre ++ (name, v) :: post) →
  Forall (entry_ok ps) pre →
  getitem ps name = Ok param → annotation param = Some a →
  py_isinstance v a = Raise e →
  _validate_provider_call_params true (pre ++ (name, v) :: post)
                                 (Callable ps body)
  = Raise e
  ∧ ∃ msg, e = TypeError msg.
Proof.
  intros Hall Hpre Hp Ha Hi. split; [|by apply py_isinstance_Raise in Hi].
  rewrite (validate_after_required _ _ _ Hall). apply params_loop_Raise.
  exists pre, name, v, post. split; [done|]. split; [done|].
  right. exists param, a. split; [done|]. split; [done|]. by right.
Qed.

(** On [def f(n: typing.Optional[int] = None, items: typing.List[int] =
    None)]: [n] is checked and passes, [items] cannot be checked. *)
Lemma validate_uncheckable_annotation_witness :
  _validate_provider_call_params true
    [("n", PyInt 3); ("items", PyList [PyInt 1])] Stub.f_optional
  = Raise (TypeError "Subscripted generics cannot be used with class and instance checks").
Proof.
  apply (validate_uncheckable_annotation
           [("n", PyInt 3)] [] _ _ "items" (PyList [PyInt 1])
           (mkParameter POSITIONAL_OR_KEYWORD (Some PyNone)
                        (Some Stub.typing_List_int))
           Stub.typing_List_int).
  - intros name param Hin Hd Hk.
    apply elem_of_cons in Hin as [[= -> ->]|Hin]; [discriminate|].
    apply elem_of_cons in Hin as [[= -> ->]|Hin]; [discriminate|].
    by apply elem_of_nil in Hin.
  - constructor; [|constructor].
    exists (mkParameter POSITIONAL_OR_KEYWORD (Some PyNone)
                        (Some Stub.typing_Optional_int)).
    split; [reflexivity|]. intros a [= <-]. reflexivity.
  - reflexivity.
  - reflexivity.
  - reflexivity.
Defined.

Lemma required_params_cons (name : string) (param : inspect_Parameter) ps :
  required_params ((name, param) :: ps)
  = if is_required param then (name, param) :: required_params ps
    else required_params ps.
Proof.
  unfold required_params. rewrite filter_cons. simpl.
  destruct (is_required param); by case_decide.
Qed.

Lemma all_required_present_nil (api_call_params : list (string * pyval)) :
  all_required_present [] api_call_params.
Proof. intros name param Hin. by apply elem_of_nil in Hin. Qed.

Lemma all_required_present_cons (api_call_params : list (string * pyval))
    (name : string) (param : inspect_Parameter) ps :
  all_required_present ((name, param) :: ps) api_call_params
  ↔ (is_required param = true → name ∈ api_call_params.*1)
    ∧ all_required_present ps api_call_params.
Proof.
  unfold all_required_present. split.
  - intros H. split.
    + intros (Hd & Hk)%is_required_spec. apply (H name param); [left|done..].
    + intros n p Hin. apply H. by right.
  - intros [Hhead Htail] n p Hin Hd Hk.
    apply elem_of_cons in Hin as [[= -> ->]|Hin].
    + apply Hhead. by apply is_required_spec.
    + by apply (Htail n p).
Qed.

(** The first loop reports the first required parameter, in declaration
    order, that has no entry. *)
Lemma required_loop_first (api_call_params : list (string * pyval)) ps e :
  for_each (fun np : string * inspect_Parameter =>
              if contains np.1 api_call_params then Ok tt
              else Raise (AssertionError (MissingRequiredParam np.1)))
           (required_params ps) = Raise e
  ↔ ∃ pre name param post,
      ps = pre ++ (name, param) :: post
      ∧ all_required_present pre api_call_params
      ∧ is_required param = true
      ∧ (name ∉ api_call_params.*1)
      ∧ e = AssertionError (MissingRequiredParam name).
Proof.
  induction ps as [|[n p] ps IH].
  - simpl. split; [discriminate|].
    intros (pre & ? & ? & ? & Hps & _). by destruct pre.
  - rewrite required_params_cons.
    destruct (is_required p) eqn:Hreq; simpl.
    + destruct (contains n api_call_params) eqn:Hc; simpl.
      * rewrite IH. split.
        -- intros (pre & name & param & post & -> & Hpre & Hr & Hout & ->).
           exists ((n, p) :: pre), name, param, post.
           split; [done|]. split; [|done].
           apply all_required_present_cons. split; [|done].
           intros _. by apply contains_elem_of.
        -- intros (pre & name & param & post & Hps & Hpre & Hr & Hout & ->).
           destruct pre as [|x pre]; simpl in Hps; simplify_eq.
           ++ by apply contains_elem_of in Hc.
           ++ apply all_required_present_cons in Hpre as [_ Hpre].
              by exists pre, name, param, post.
      * split.
        -- intros [= <-]. exists [], n, p, ps.
           split; [done|]. split; [apply all_required_present_nil|].
           split; [done|]. split; [by apply contains_false|done].
        -- intros (pre & name & param & post & Hps & Hpre & Hr & Hout & ->).
           destruct pre as [|x pre]; simpl in Hps; simplify_eq; [done|].
           apply all_required_present_cons in Hpre as [Hhead _].
           apply Hhead, contains_elem_of in Hreq. congruence.
    + rewrite IH. split.
      * intros (pre & name & param & post & -> & Hpre & Hr & Hout & ->).
        exists ((n, p) :: pre), name, param, post.
        split; [done|]. split; [|done].
        apply all_required_present_cons. split; [|done]. congruence.
      * intros (pre & name & param & post & Hps & Hpre & Hr & Hout & ->).
        destruct pre as [|x pre]; simpl in Hps; simplify_eq; [congruence|].
        apply all_required_present_cons in Hpre as [_ Hpre].
        by exists pre, name, param, post.
Qed.

(** X3: with assertions on, the name in [MissingRequiredParam] is that of
    the first parameter, in declaration order, that has no default, is not
    the keyword sink and has no entry; a missing required parameter is
    reported whatever the entries are, so before any unexpected or mistyped
    entry. *)
Theorem validate_reports_first_missing
    (api_call_params : list (string * pyval)) ps body (name : string) :
  _validate_provider_call_params true api_call_params (Callable ps body)
  = Raise (AssertionError (MissingRequiredParam name))
  ↔ ∃ pre param post,
      ps = pre ++ (name, param) :: post
      ∧ all_required_present pre api_call_params
      ∧ default param = None ∧ kind param ≠ VAR_KEYWORD
      ∧ name ∉ api_call_params.*1.
Proof.
  split.
  - intros Hv.
    destruct (for_each
                (fun np : string * inspect_Parameter =>
                   if contains np.1 api_call_params then Ok tt
                   else Raise (AssertionError (MissingRequiredParam np.1)))
                (required_params ps)) as [[]|e] eqn:Hloop.
    + apply required_loop_Ok in Hloop.
      rewrite (validate_after_required _ _ _ Hloop) in Hv.
      by apply params_loop_not_missing in Hv.
    + rewrite validate_unfold in Hv. unfold mbind, result_bind in Hv.
      rewrite Hloop in Hv. injection Hv as ->.
      apply required_loop_first in Hloop
        as (pre & n & param & post & -> & Hpre & Hr & Hout & [= <-]).
      apply is_required_spec in Hr as [Hd Hk].
      by exists pre, param, post.
  - intros (pre & param & post & -> & Hpre & Hd & Hk & Hout).
    rewrite validate_unfold.
    assert (for_each
              (fun np : string * inspect_Parameter =>
                 if contains np.1 api_call_params then Ok tt
                 else Raise (AssertionError (MissingRequiredParam np.1)))
              (required_params (pre ++ (name, param) :: post))
            = Raise (AssertionError (MissingRequiredParam name))) as ->.
    { apply required_loop_first. exists pre, name, param, post.
      split; [done|]. split; [done|]. split; [by apply is_required_spec|].
      done. }
    reflexivity.
Qed.

(** On [def f(a, b)] with [{c: "x"}]: [a] is reported, not [b] and not the
    undeclared [c]. *)
Lemma validate_reports_first_missing_witness :
  _validate_provider_call_params true [("c", PyStr "x")] Stub.f
  = Raise (AssertionError (MissingRequiredParam "a")).
Proof.
  apply (validate_reports_first_missing
           [("c", PyStr "x")] [("a", Stub.required); ("b", Stub.required)]
           (fun args kwargs =>
              bind_arguments [("a", Stub.required); ("b", Stub.required)]
                             args kwargs ≫= fun _ => Ok (Data PyNone))
           "a").
  exists [], Stub.required, [("b", Stub.required)].
  split; [reflexivity|]. split; [apply all_required_present_nil|].
  split; [reflexivity|]. split; [discriminate|]. set_solver.
Defined.

(** X4: with assertions on, whether validation passes does not depend on
    the order of the entries of the native parameters (which failure is
    reported may). *)
Theorem validate_Ok_permutation (api1 api2 : list (string * pyval))
    (call : pyobj) :
  api1 ≡ₚ api2 →
  _validate_provider_call_params true api1 call = Ok tt →
  _validate_provider_call_params true api2 call = Ok tt.
Proof.
  intros Hperm Hv.
  destruct call as [v|ps body]; [by rewrite validate_not_callable in Hv|].
  destruct (required_loop_cases api1 ps)
    as [Hall|(name & param & Hloop & _)].
  - rewrite (validate_after_required _ _ _ Hall) in Hv.
    rewrite validate_after_required.
    + apply for_each_Ok. rewrite <- Hperm. by apply for_each_Ok.
    + intros name param Hin Hd Hk. rewrite <- Hperm. by apply (Hall name param).
  - rewrite validate_unfold in Hv. unfold mbind, result_bind in Hv.
    rewrite Hloop in Hv. discriminate.
Qed.

Lemma validate_Ok_permutation_witness :
  _validate_provider_call_params true
    [("temperature", PyFloat (2 # 10)); ("prompt", PyStr "hi");
     ("model", PyStr "m1")] Stub.backend = Ok tt.
Proof.
  apply (validate_Ok_permutation Stub.native_params).
  - unfold Stub.native_params.
    etrans; [apply Permutation_swap|].
    etrans; [apply Permutation_skip, Permutation_swap|].
    etrans; [apply Permutation_swap|]. reflexivity.
  - reflexivity.
Defined.

(** ** The validators with assertions off *)

Lemma for_each_assert_off {A} (cond : A -> result bool)
    (msg : A -> ContractViolation) (l : list A) :
  for_each (fun x => py_assert false (cond x) (msg x)) l = Ok tt.
Proof. induction l as [|x l IH]; [done|]. simpl. exact IH. Qed.

Lemma check_param_off ps (name : string) (v : pyval) :
  check_param false ps (name, v)
  = if contains name ps then Ok tt else Raise (KeyError name).
Proof.
  unfold check_param. simpl.
  destruct (contains name ps) eqn:Hc.
  - apply getitem_contains in Hc as [param ->]. simpl.
    by destruct (annotation param).
  - by rewrite (getitem_KeyError _ _ Hc).
Qed.

Lemma validate_off_unfold (api_call_params : list (string * pyval)) ps body :
  _validate_provider_call_params false api_call_params (Callable ps body)
  = for_each (check_param false ps) api_call_params.
Proof.
  unfold _validate_provider_call_params. cbn [_call_params mbind result_bind].
  by rewrite (for_each_assert_off (fun _ => _) (fun np => _)).
Qed.

(** X5: with assertions off, validation against a callable still indexes
    the signature by every key of the native parameters.  It passes exactly
    when every key is a declared parameter name, and otherwise raises
    [KeyError] for the first key that is not; missing required parameters
    and values of the wrong type go unnoticed. *)
Theorem validate_without_assertions
    (api_call_params : list (string * pyval)) ps body :
  (_validate_provider_call_params false api_call_params (Callable ps body)
   = Ok tt
   ↔ ∀ name, name ∈ api_call_params.*1 → name ∈ ps.*1)
  ∧ ∀ e,
      _validate_provider_call_params false api_call_params (Callable ps body)
      = Raise e
      ↔ ∃ pre name v post,
          api_call_params = pre ++ (name, v) :: post
          ∧ (∀ n, n ∈ pre.*1 → n ∈ ps.*1)
          ∧ (name ∉ ps.*1)
          ∧ e = KeyError name.
Proof.
  rewrite validate_off_unfold.
  assert (∀ l : list (string * pyval),
            Forall (fun item => check_param false ps item = Ok tt) l
            ↔ ∀ n, n ∈ l.*1 → n ∈ ps.*1) as Hdecl.
  { intros l. rewrite Forall_forall. split.
    - intros H n ([n' v] & -> & Hin)%list_elem_of_fmap. simpl.
      apply H in Hin. rewrite check_param_off in Hin.
      apply contains_elem_of. by destruct (contains n' ps).
    - intros H [n v] Hin. rewrite check_param_off.
      assert (contains n ps = true) as ->; [|done].
      apply contains_elem_of, H, list_elem_of_fmap. by exists (n, v). }
  split.
  - by rewrite for_each_Ok, Hdecl.
  - intros e. rewrite for_each_Raise. split.
    + intros (pre & [name v] & post & -> & Hpre & Hx).
      rewrite check_param_off in Hx.
      destruct (contains name ps) eqn:Hc; [discriminate|].
      injection Hx as <-. exists pre, name, v, post.
      split; [done|]. split; [by apply Hdecl|].
      split; [by apply contains_false|done].
    + intros (pre & name & v & post & -> & Hpre & Hout & ->).
      exists pre, (name, v), post. split; [done|]. split; [by apply Hdecl|].
      rewrite check_param_off. apply contains_false in Hout. by rewrite Hout.
Qed.

(** On [def f(a, b)] with assertions off: a missing [b] and nothing else
    passes; an undeclared [c] raises [KeyError]. *)
Lemma validate_without_assertions_witness :
  _validate_provider_call_params false [("a", PyInt 1)] Stub.f = Ok tt
  ∧ _validate_provider_call_params false [("a", PyInt 1); ("c", PyInt 3)]
                                   Stub.f
    = Raise (KeyError "c").
Proof.
  split.
  - apply (validate_without_assertions
             [("a", PyInt 1)] [("a", Stub.required); ("b", Stub.required)]).
    set_solver.
  - apply (validate_without_assertions
             [("a", PyInt 1); ("c", PyInt 3)]
             [("a", Stub.required); ("b", Stub.required)]).
    exists [("a", PyInt 1)], "c", (PyInt 3), [].
    split; [reflexivity|]. split; [set_solver|]. split; [set_solver|done].
Defined.

(** ** More on [_validate_messages_are_tracked] *)

(** X6: with assertions on and an origin given, the failure is that of the
    first message, in list order, whose text is not tagged with the origin:
    it reports the class of the text when the text is not a tagged string,
    and the recorded and the expected origin when it is one. *)
Theorem untracked_message_report (pre post : list Message)
    (message : Message) (origin_id : string) :
  Forall (tracked origin_id) pre → ¬ tracked origin_id message →
  _validate_messages_are_tracked true (pre ++ message :: post) (Some origin_id)
  = Raise (AssertionError (UntrackedMessage
      (if isinstance (text message) _lstr
       then WrongOrigin (lstr_origin (text message)) origin_id
       else NotLstr (type_of (text message))))).
Proof.
  intros Hpre Hm. unfold _validate_messages_are_tracked.
  apply for_each_Raise.
  exists pre, message, post. split; [done|]. split.
  - eapply Forall_impl; [exact Hpre|]. intros m. by rewrite check_message_Ok.
  - unfold check_message.
    destruct (isinstance (text message) _lstr) eqn:Hi; cbn; [|done].
    case_bool_decide as Ho; cbn; [|done].
    destruct Hm. apply isinstance_lstr in Hi as (s & o & Hs).
    exists s. rewrite Hs in Ho |- *. simpl in Ho. by rewrite Ho.
Qed.

Lemma untracked_message_report_witness :
  _validate_messages_are_tracked true
    [mkMessage "assistant" [] (PyLstr "hello" (Some "run-42"));
     mkMessage "assistant" [] (PyLstr "bye" (Some "run-7"));
     mkMessage "assistant" [] (PyStr "plain")] (Some "run-42")
  = Raise (AssertionError (UntrackedMessage
                             (WrongOrigin (Some "run-7") "run-42"))).
Proof.
  apply (untracked_message_report
           [mkMessage "assistant" [] (PyLstr "hello" (Some "run-42"))]
           [mkMessage "assistant" [] (PyStr "plain")]
           (mkMessage "assistant" [] (PyLstr "bye" (Some "run-7")))
           "run-42").
  - constructor; [|constructor]. by exists "hello".
  - intros [s Hs]. discriminate Hs.
Defined.

(** With assertions off the provenance check passes for every list of
    messages and every origin: no text is looked at. *)
Lemma tracked_check_off (messages : list Message)
    (origin_id : option string) :
  _validate_messages_are_tracked false messages origin_id = Ok tt.
Proof.
  destruct origin_id as [origin_id|]; [|done]. simpl.
  induction messages as [|m messages IH]; [done|]. exact IH.
Qed.

(** * Further properties of [Provider.call] and [available_api_params] *)

Lemma check_disallowed_Ok (__debug__ : bool) (self : Provider)
    (ell_call : EllCallParams) :
  check_disallowed __debug__ self ell_call = Ok tt ↔ __debug__ = false.
Proof. destruct __debug__; split; done. Qed.

(** X8: [call] returns exactly when assertions are off and every step
    returns: the translation gives the native parameters, the call function
    is a callable declaring every key of them, calling it with the
    parameters as one positional dict returns something that, called with
    them as keywords, returns the response, and the response translates.
    What [call] returns is then the messages and metadata of
    [translate_from_provider] as they are, tagged or not, with the native
    parameters of [translate_to_provider] in between; each provider method
    has run once, in this order. *)
Theorem call_Ok_iff (__debug__ : bool) (self : Provider)
    (ell_call : EllCallParams) (origin_id : option string)
    (logger : option pyval) (tr tr' : list event)
    (messages : list Message) (final : list (string * pyval))
    (metadata : Metadata) :
  call __debug__ self ell_call origin_id logger tr
  = (Ok (messages, final, metadata), tr')
  ↔ __debug__ = false
    ∧ translate_to_provider self ell_call = Ok final
    ∧ ∃ fn inner provider_resp,
        provider_call_function self (Some final) = Ok fn
        ∧ _validate_provider_call_params false final fn = Ok tt
        ∧ py_call fn [PyDict final] [] = Ok inner
        ∧ py_call inner [] final = Ok provider_resp
        ∧ translate_from_provider self provider_resp ell_call origin_id logger
          = Ok (messages, metadata)
        ∧ tr' = tr ++ [EvTranslateToProvider ell_call;
                       EvProviderCallFunction final;
                       EvCall fn [PyDict final] [];
                       EvCall inner [] final;
                       EvTranslateFromProvider provider_resp].
Proof.
  split.
  - destruct __debug__; [discriminate|].
    unfold call, mbind, M_bind, lift, extern.
    rewrite check_disallowed_optimized.
    destruct (translate_to_provider self ell_call) as [final'|];
      [|discriminate].
    destruct (provider_call_function self (Some final')) as [fn|] eqn:Hfn;
      [|discriminate].
    destruct (_validate_provider_call_params false final' fn) as [[]|] eqn:Hv;
      [|discriminate].
    destruct (py_call fn [PyDict final'] []) as [inner|] eqn:Hinner;
      [|discriminate].
    destruct (py_call inner [] final') as [resp|] eqn:Hresp; [|discriminate].
    destruct (translate_from_provider self resp ell_call origin_id logger)
      as [[ms md]|] eqn:Hfrom; [|discriminate].
    rewrite tracked_check_off.
    intros [= -> -> -> <-]. split; [done|]. split; [done|].
    exists fn, inner, resp. rewrite <- !(assoc_L (++)). by repeat split.
  - intros (-> & Hto & fn & inner & resp & Hfn & Hv & Hinner & Hresp & Hfrom
            & ->).
    unfold call, mbind, M_bind, lift, extern.
    rewrite check_disallowed_optimized, Hto, Hfn, Hv, Hinner, Hresp, Hfrom.
    rewrite tracked_check_off. by rewrite <- !(assoc_L (++)).
Qed.

(** With assertions off, on a call function of the curried shape, the
    scenario of the spec returns its one message, and a provider that
    drops the tag is not caught. *)
Lemma call_Ok_iff_witness :
  call false Curried.provider Stub.ell_call (Some "run-42") None []
  = (Ok ([mkMessage "assistant" [] (PyLstr "hello" (Some "run-42"))],
         Stub.native_params, []),
     [EvTranslateToProvider Stub.ell_call;
      EvProviderCallFunction Stub.native_params;
      EvCall Curried.backend [PyDict Stub.native_params] [];
      EvCall Stub.backend [] Stub.native_params;
      EvTranslateFromProvider (Data (PyDict [("text", PyStr "hello")]))])
  ∧ call false Curried.untagging_provider Stub.ell_call (Some "run-42") None []
    = (Ok ([mkMessage "assistant" [] (PyStr "hello")],
           Stub.native_params, []),
       [EvTranslateToProvider Stub.ell_call;
        EvProviderCallFunction Stub.native_params;
        EvCall Curried.backend [PyDict Stub.native_params] [];
        EvCall Stub.backend [] Stub.native_params;
        EvTranslateFromProvider (Data (PyDict [("text", PyStr "hello")]))]).
Proof.
  split.
  - apply (call_Ok_iff false Curried.provider). split; [done|].
    split; [reflexivity|].
    exists Curried.backend, Stub.backend,
           (Data (PyDict [("text", PyStr "hello")])).
    repeat split.
  - apply (call_Ok_iff false Curried.untagging_provider). split; [done|].
    split; [reflexivity|].
    exists Curried.backend, Stub.backend,
           (Data (PyDict [("text", PyStr "hello")])).
    repeat split.
Defined.

(** X9: when validation of the native parameters fails inside [call], the
    call function is not called: [call] raises the validation's exception
    after [translate_to_provider] and [provider_call_function] and nothing
    else have run. *)
Theorem validation_failure_stops_call (__debug__ : bool) (self : Provider)
    (ell_call : EllCallParams) (origin_id : option string)
    (logger : option pyval) (tr : list event)
    (final : list (string * pyval)) (fn : pyobj) (e : exn) :
  check_disallowed __debug__ self ell_call = Ok tt →
  translate_to_provider self ell_call = Ok final →
  provider_call_function self (Some final) = Ok fn →
  _validate_provider_call_params __debug__ final fn = Raise e →
  call __debug__ self ell_call origin_id logger tr
  = (Raise e, tr ++ [EvTranslateToProvider ell_call;
                     EvProviderCallFunction final]).
Proof.
  intros Hcheck Hto Hfn Hv. unfold call, mbind, M_bind, lift, extern.
  rewrite Hcheck, Hto, Hfn, Hv. by rewrite <- !(assoc_L (++)).
Qed.

(** An override the backend does not declare, with assertions off: the
    signature lookup raises before the backend is called. *)
Lemma validation_failure_stops_call_witness :
  call false Stub.provider Curried.undeclared_call None None []
  = (Raise (KeyError "top_p"),
     [EvTranslateToProvider Curried.undeclared_call;
      EvProviderCallFunction Curried.undeclared_params]).
Proof.
  apply (validation_failure_stops_call false Stub.provider
           Curried.undeclared_call None None [] Curried.undeclared_params
           Stub.backend (KeyError "top_p"));
    reflexivity.
Defined.

Lemma validate_off_Raise (api_call_params : list (string * pyval))
    (fn : pyobj) (e : exn) :
  _validate_provider_call_params false api_call_params fn = Raise e →
  e = TypeError "object is not a callable object" ∨ ∃ name, e = KeyError name.
Proof.
  destruct fn as [v|ps body].
  - rewrite validate_not_callable. intros [= <-]. by left.
  - rewrite validate_off_unfold, for_each_Raise.
    intros (_ & [name v] & _ & _ & _ & Hx). rewrite check_param_off in Hx.
    destruct (contains name ps); [discriminate|].
    injection Hx as <-. right. by exists name.
Qed.

(** X10: where an exception of [call] comes from.  With assertions on it
    is the [TypeError] of the first line, and no provider code has run.
    With assertions off it is either what [translate_to_provider],
    [provider_call_function], one of the two calls of line 91 or
    [translate_from_provider] raised, passed on as it is, or the
    [TypeError] or [KeyError] of the signature lookup in the validation.  So
    none of the module's own checks ever makes [call] fail with a contract
    violation. *)
Theorem call_Raise_inv (__debug__ : bool) (self : Provider)
    (ell_call : EllCallParams) (origin_id : option string)
    (logger : option pyval) (tr tr' : list event) (e : exn) :
  call __debug__ self ell_call origin_id logger tr = (Raise e, tr') →
  (__debug__ = true ∧ e = TypeError "unhashable type: 'dict_keys'" ∧ tr' = tr)
  ∨ (__debug__ = false
     ∧ (translate_to_provider self ell_call = Raise e
        ∨ ∃ final,
            translate_to_provider self ell_call = Ok final
            ∧ (provider_call_function self (Some final) = Raise e
               ∨ ∃ fn,
                   provider_call_function self (Some final) = Ok fn
                   ∧ ((_validate_provider_call_params false final fn = Raise e
                       ∧ (e = TypeError "object is not a callable object"
                          ∨ ∃ name, e = KeyError name))
                      ∨ py_call fn [PyDict final] [] = Raise e
                      ∨ ∃ inner,
                          py_call fn [PyDict final] [] = Ok inner
                          ∧ (py_call inner [] final = Raise e
                             ∨ ∃ provider_resp,
                                 py_call inner [] final = Ok provider_resp
                                 ∧ translate_from_provider self provider_resp
                                     ell_call origin_id logger
                                   = Raise e))))).
Proof.
  destruct __debug__.
  - unfold call, mbind, M_bind, lift. rewrite check_disallowed_debug.
    intros [= <- <-]. by left.
  - intros Hcall. right. split; [done|]. revert Hcall.
    unfold call, mbind, M_bind, lift, extern.
    rewrite check_disallowed_optimized.
    destruct (translate_to_provider self ell_call) as [final|e0] eqn:Hto;
      [|intros [= <- _]; by left].
    destruct (provider_call_function self (Some final)) as [fn|e0] eqn:Hfn.
    2: { intros [= <- _]. right. exists final. split; [done|]. by left. }
    destruct (_validate_provider_call_params false final fn) as [[]|e0] eqn:Hv.
    2: { intros [= <- _]. right. exists final. split; [done|].
         right. exists fn. split; [done|]. left. split; [done|].
         by apply validate_off_Raise in Hv. }
    destruct (py_call fn [PyDict final] []) as [inner|e0] eqn:Hinner.
    2: { intros [= <- _]. right. exists final. split; [done|].
         right. exists fn. split; [done|]. right. by left. }
    destruct (py_call inner [] final) as [resp|e0] eqn:Hresp.
    2: { intros [= <- _]. right. exists final. split; [done|].
         right. exists fn. split; [done|]. right. right.
         exists inner. split; [done|]. by left. }
    destruct (translate_from_provider self resp ell_call origin_id logger)
      as [[ms md]|e0] eqn:Hfrom.
    + rewrite tracked_check_off. discriminate.
    + intros [= <- _]. right. exists final. split; [done|].
      right. exists fn. split; [done|]. right. right.
      exists inner. split; [done|]. right. by exists resp.
Qed.

Lemma call_Raise_inv_witness :
  translate_to_provider Stub.failing_provider Stub.ell_call
  = Ok Stub.native_params
  ∧ py_call Stub.failing_backend [PyDict Stub.native_params] []
    = Raise Stub.connection_error.
Proof.
  destruct (call_Raise_inv false Stub.failing_provider Stub.ell_call None None
              []
              [EvTranslateToProvider Stub.ell_call;
               EvProviderCallFunction Stub.native_params;
               EvCall Stub.failing_backend [PyDict Stub.native_params] []]
              Stub.connection_error eq_refl)
    as [[? _]|[_ H]]; [discriminate|].
  split; reflexivity.
Defined.

(** X11: a failing [call] stops at its first failure.  When [call] raises,
    its log is exactly the steps up to the one that raised, each of the
    earlier ones having returned the value the later ones were given:
    nothing on the first line, then [translate_to_provider], then
    [provider_call_function] (after which validation may raise without a
    further step), the call function on the parameters as one positional
    dict, its result on the parameters as keywords,
    [translate_from_provider].  So no provider method is run twice or out of
    this order, and none is run after a failure. *)
Theorem call_stops_at_first_failure (__debug__ : bool) (self : Provider)
    (ell_call : EllCallParams) (origin_id : option string)
    (logger : option pyval) (tr tr' : list event) (e : exn) :
  call __debug__ self ell_call origin_id logger tr = (Raise e, tr') →
  (check_disallowed __debug__ self ell_call = Raise e ∧ tr' = tr)
  ∨ (check_disallowed __debug__ self ell_call = Ok tt
     ∧ ((translate_to_provider self ell_call = Raise e
         ∧ tr' = tr ++ [EvTranslateToProvider ell_call])
        ∨ ∃ final,
            translate_to_provider self ell_call = Ok final
            ∧ ((provider_call_function self (Some final) = Raise e
                ∧ tr' = tr ++ [EvTranslateToProvider ell_call;
                               EvProviderCallFunction final])
               ∨ ∃ fn,
                   provider_call_function self (Some final) = Ok fn
                   ∧ ((_validate_provider_call_params __debug__ final fn
                       = Raise e
                       ∧ tr' = tr ++ [EvTranslateToProvider ell_call;
                                      EvProviderCallFunction final])
                      ∨ (_validate_provider_call_params __debug__ final fn
                         = Ok tt
                         ∧ ((py_call fn [PyDict final] [] = Raise e
                             ∧ tr' = tr ++ [EvTranslateToProvider ell_call;
                                            EvProviderCallFunction final;
                                            EvCall fn [PyDict final] []])
                            ∨ ∃ inner,
                                py_call fn [PyDict final] [] = Ok inner
                                ∧ ((py_call inner [] final = Raise e
                                    ∧ tr' = tr ++
                                        [EvTranslateToProvider ell_call;
                                         EvProviderCallFunction final;
                                         EvCall fn [PyDict final] [];
                                         EvCall inner [] final])
                                   ∨ ∃ provider_resp,
                                       py_call inner [] final
                                       = Ok provider_resp
                                       ∧ tr' = tr ++
                                           [EvTranslateToProvider ell_call;
                                            EvProviderCallFunction final;
                                            EvCall fn [PyDict final] [];
                                            EvCall inner [] final;
                                            EvTranslateFromProvider
                                              provider_resp]
                                       ∧ (translate_from_provider self
                                            provider_resp ell_call origin_id
                                            logger = Raise e
                                          ∨ ∃ messages metadata,
                                              translate_from_provider self
                                                provider_resp ell_call
                                                origin_id logger
                                              = Ok (messages, metadata)
                                              ∧ _validate_messages_are_tracked
                                                  __debug__ messages origin_id
                                                = Raise e)))))))).
Proof.
  unfold call, mbind, M_bind, lift, extern.
  destruct (check_disallowed __debug__ self ell_call) as [[]|e0];
    [|intros [= <- <-]; by left].
  intros Hcall. right. split; [done|]. revert Hcall.
  destruct (translate_to_provider self ell_call) as [final|e0] eqn:Hto;
    [|intros [= <- <-]; by left].
  destruct (provider_call_function self (Some final)) as [fn|e0] eqn:Hfn.
  2: { intros [= <- <-]. right. exists final. split; [done|]. left.
       by rewrite <- !(assoc_L (++)). }
  destruct (_validate_provider_call_params __debug__ final fn)
    as [[]|e0] eqn:Hv.
  2: { intros [= <- <-]. right. exists final. split; [done|].
       right. exists fn. split; [done|]. left.
       by rewrite <- !(assoc_L (++)). }
  destruct (py_call fn [PyDict final] []) as [inner|e0] eqn:Hinner.
  2: { intros [= <- <-]. right. exists final. split; [done|].
       right. exists fn. split; [done|]. right. split; [done|]. left.
       by rewrite <- !(assoc_L (++)). }
  destruct (py_call inner [] final) as [resp|e0] eqn:Hresp.
  2: { intros [= <- <-]. right. exists final. split; [done|].
       right. exists fn. split; [done|]. right. split; [done|].
       right. exists inner. split; [done|]. left.
       by rewrite <- !(assoc_L (++)). }
  intros Hcall. right. exists final. split; [done|].
  right. exists fn. split; [done|]. right. split; [done|].
  right. exists inner. split; [done|]. right. exists resp. split; [done|].
  revert Hcall.
  destruct (translate_from_provider self resp ell_call origin_id logger)
    as [[ms md]|e0] eqn:Hfrom.
  - destruct (_validate_messages_are_tracked __debug__ ms origin_id)
      as [[]|e0] eqn:Ht; [discriminate|].
    intros [= <- <-]. split; [by rewrite <- !(assoc_L (++))|].
    right. by exists ms, md.
  - intros [= <- <-]. split; [by rewrite <- !(assoc_L (++))|]. by left.
Qed.

(** The backend that times out, with assertions off: the log ends with the
    call that raised. *)
Lemma call_stops_at_first_failure_witness :
  py_call Stub.failing_backend [PyDict Stub.native_params] []
  = Raise Stub.connection_error
  ∧ (call false Stub.failing_provider Stub.ell_call None None []).2
    = [EvTranslateToProvider Stub.ell_call;
       EvProviderCallFunction Stub.native_params;
       EvCall Stub.failing_backend [PyDict Stub.native_params] []].
Proof.
  destruct (call_stops_at_first_failure false Stub.failing_provider
              Stub.ell_call None None []
              (call false Stub.failing_provider Stub.ell_call None None []).2
              Stub.connection_error eq_refl)
    as [[H _]|[_ [[H _]|(final & Hto & [[H _]|(fn & Hfn & H)])]]];
    try discriminate H.
  injection Hto as <-. injection Hfn as <-.
  destruct H as [[H _]|[_ [[H Htr]|(inner & H & _)]]]; try discriminate H.
  split; [exact H | exact Htr].
Defined.

(** X12: validation and availability agree on names: when the native
    parameters pass validation (assertions on) against the call function
    that [provider_call_function] returns for a hint, every key of them is
    either one of [available_api_params] for that hint or a disallowed
    name. *)
Theorem validated_keys_available_or_disallowed (self : Provider)
    (hint : option (list (string * pyval)))
    (api_call_params : list (string * pyval)) (fn : pyobj) :
  provider_call_function self hint = Ok fn →
  _validate_provider_call_params true api_call_params fn = Ok tt →
  ∃ available : gset string,
    available_api_params self hint = Ok available
    ∧ ∀ name, name ∈ api_call_params.*1 →
              name ∈ available ∨ name ∈ disallowed_api_params self.
Proof.
  intros Hfn (ps & body & -> & _ & Hentries)%validate_Ok_inv.
  exists (list_to_set ps.*1 ∖ disallowed_api_params self). split.
  - unfold available_api_params. by rewrite Hfn.
  - intros name ([n v] & -> & Hin)%list_elem_of_fmap. simpl.
    rewrite Forall_forall in Hentries.
    destruct (Hentries _ Hin) as (param & Hp & _). simpl in Hp.
    assert (n ∈ ps.*1) by (apply contains_elem_of, getitem_contains; eauto).
    destruct (decide (n ∈ disallowed_api_params self)); [by right|].
    left. set_solver.
Qed.

Lemma validated_keys_available_or_disallowed_witness :
  ∃ available : gset string,
    available_api_params Stub.provider None = Ok available
    ∧ ∀ name, name ∈ Stub.native_params.*1 →
              name ∈ available
              ∨ name ∈ disallowed_api_params Stub.provider.
Proof.
  apply (validated_keys_available_or_disallowed Stub.provider None
           Stub.native_params Stub.backend);
    reflexivity.
Defined.
